(** * rueckenwind: the response lifecycle of [rw.httpbase.RequestHandler]

    A shallow embedding of [src/rw/httpbase.py].  The handler object is a
    record of the attributes the methods read and assign; every method is a
    function in a small state-and-exception monad over that record and a
    trace of what the handler did to the outside world (writes on the
    transport, calls to hooks and collaborators).

    [RequestHandler] subclasses [tornado.web.RequestHandler].  What the
    methods of this file call on the base class, on the transport and on
    user-overridable hooks is collected in the class [Inherited]; the
    theorems hold for every instance of it.

    The constructor of [Application] and the [_cache_support] helper of
    [src/rw/future.py] are embedded further down. *)

From stdpp Require Import gmap strings list fin_maps pretty.

Open Scope Z_scope.

(** ** Data *)

(** Python 2 byte strings. *)
Abbreviation bytes := string.

(** [b"".join(parts)] *)
Definition join (parts : list bytes) : bytes := foldr String.append "" parts.

(** [sum(len(part) for part in parts)] *)
Definition sum_len (parts : list bytes) : Z :=
  foldr (fun part acc => Z.of_nat (String.length part) + acc) 0 parts.

(** The exceptions that travel through the handler.  [SystemExiting] stands
    for the interpreter signals ([KeyboardInterrupt], [SystemExit],
    [GeneratorExit]) that derive from [BaseException] but not from
    [Exception]; every other constructor is an instance of [Exception]. *)
Inductive Exn : Type :=
| HTTPError (status : Z)
| RuntimeError (msg : string)
| AssertionError (msg : string)
| TypeError (msg : string)
| ValueError (msg : string)
| NotImplementedError
| OtherException (name : string)
| SystemExiting (name : string).

(** [isinstance(e, Exception)], the test of an [except Exception] clause. *)
Definition is_Exception (e : Exn) : bool :=
  match e with
  | SystemExiting _ => false
  | _ => true
  end.

Inductive Res (A : Type) : Type :=
| Ok (a : A)
| Raise (e : Exn).
Arguments Ok {A} a.
Arguments Raise {A} e.

(** The values an application setting can hold, as far as their truth value
    is concerned. *)
Inductive PyVal : Type :=
| PyNone
| PyBool (b : bool)
| PyInt (n : Z)
| PyStr (s : string).

Definition truthy (v : PyVal) : bool :=
  match v with
  | PyNone => false
  | PyBool b => b
  | PyInt n => negb (n =? 0)
  | PyStr s => negb (String.eqb s "")
  end.

(** [Application]: the [settings] dict ([self.settings = {}] in
    [Application.__init__]); [root] and [scope] are collaborators. *)
Record Application : Type := {
  settings : gmap string PyVal;
}.

(** [settings.get(key)]: [None] when the key is absent. *)
Definition settings_get (app : Application) (key : string) : PyVal :=
  default PyNone (settings app !! key).

(** The request object handed over by the HTTP server. *)
Record HTTPRequest : Type := {
  method : string;
  request_headers : gmap string string;
  has_connection : bool;   (* hasattr(self.request, "connection") *)
}.

(** An output transform: an object with its own mutable state and the two
    methods [transform_first_chunk] and [transform_chunk].  Each call gives
    back the state the object is left in and what the call returned or
    raised. *)
Record Transform : Type := {
  T_state : Type;
  T_now : T_state;
  T_first_chunk :
    T_state -> Z -> gmap string string -> bytes -> bool ->
    T_state * Res (Z * gmap string string * bytes);
  T_chunk : T_state -> bytes -> bool -> T_state * Res bytes;
}.

Definition T_with (t : Transform) (s : T_state t) : Transform :=
  {| T_state := T_state t; T_now := s;
     T_first_chunk := T_first_chunk t; T_chunk := T_chunk t |}.

Definition transform_first_chunk (t : Transform) (status : Z)
    (headers : gmap string string) (chunk : bytes) (finishing : bool)
  : Transform * Res (Z * gmap string string * bytes) :=
  let '(s, r) := T_first_chunk t (T_now t) status headers chunk finishing in
  (T_with t s, r).

Definition transform_chunk (t : Transform) (chunk : bytes) (finishing : bool)
  : Transform * Res bytes :=
  let '(s, r) := T_chunk t (T_now t) chunk finishing in
  (T_with t s, r).

(** The attributes of a [RequestHandler] instance. *)
Record Handler : Type := {
  application : Application;
  request : HTTPRequest;
  _headers_written : bool;
  _finished : bool;
  _auto_finish : bool;
  _transforms : option (list Transform);   (* None until _execute sets it *)
  _write_buffer : list bytes;
  _status_code : Z;
  _headers : gmap string string;
}.

Definition set_headers_written (b : bool) (h : Handler) : Handler :=
  {| application := application h; request := request h;
     _headers_written := b; _finished := _finished h;
     _auto_finish := _auto_finish h; _transforms := _transforms h;
     _write_buffer := _write_buffer h; _status_code := _status_code h;
     _headers := _headers h |}.

Definition set_finished (b : bool) (h : Handler) : Handler :=
  {| application := application h; request := request h;
     _headers_written := _headers_written h; _finished := b;
     _auto_finish := _auto_finish h; _transforms := _transforms h;
     _write_buffer := _write_buffer h; _status_code := _status_code h;
     _headers := _headers h |}.

Definition set_transforms (ts : option (list Transform)) (h : Handler) : Handler :=
  {| application := application h; request := request h;
     _headers_written := _headers_written h; _finished := _finished h;
     _auto_finish := _auto_finish h; _transforms := ts;
     _write_buffer := _write_buffer h; _status_code := _status_code h;
     _headers := _headers h |}.

Definition set_write_buffer (buf : list bytes) (h : Handler) : Handler :=
  {| application := application h; request := request h;
     _headers_written := _headers_written h; _finished := _finished h;
     _auto_finish := _auto_finish h; _transforms := _transforms h;
     _write_buffer := buf; _status_code := _status_code h;
     _headers := _headers h |}.

Definition set_status_code (code : Z) (h : Handler) : Handler :=
  {| application := application h; request := request h;
     _headers_written := _headers_written h; _finished := _finished h;
     _auto_finish := _auto_finish h; _transforms := _transforms h;
     _write_buffer := _write_buffer h; _status_code := code;
     _headers := _headers h |}.

Definition set_headers (hd : gmap string string) (h : Handler) : Handler :=
  {| application := application h; request := request h;
     _headers_written := _headers_written h; _finished := _finished h;
     _auto_finish := _auto_finish h; _transforms := _transforms h;
     _write_buffer := _write_buffer h; _status_code := _status_code h;
     _headers := hd |}.

(** ** The outside world *)

(** A flush callback is known by a name only. *)
Definition Callback : Type := nat.

(** What reaches the transport: [request.write(data, callback=cb)],
    [request.finish()] and [request.connection.set_close_callback(None)]. *)
Inductive Wire : Type :=
| request_write (data : bytes) (callback : option Callback)
| request_finish
| set_close_callback_None.

(** The hooks and collaborators a handler method calls. *)
Inductive Callee : Type :=
| c_initialize
| c_log
| c_on_finish
| c_check_xsrf_cookie
| c_prepare
| c_when_complete
| c_handle_request
| c_handle_request_exception (e : Exn).

Inductive Event : Type :=
| Sent (w : Wire)
| Called (c : Callee).

Record World : Type := {
  self : Handler;
  trace : list Event;
}.

(** ** The monad of handler methods

    A method runs on a world and leaves a world behind whether it returns
    or raises: what it assigned before raising stays assigned. *)
Definition M (A : Type) : Type := World -> Res A * World.

Definition ret {A} (a : A) : M A := fun w => (Ok a, w).

Definition raise {A} (e : Exn) : M A := fun w => (Raise e, w).

Definition bind {A B} (m : M A) (k : A -> M B) : M B :=
  fun w =>
    match m w with
    | (Ok a, w') => k a w'
    | (Raise e, w') => (Raise e, w')
    end.

Declare Scope handler_scope.
Delimit Scope handler_scope with handler.
Notation "x <- m ;; k" := (bind m (fun x => k))
  (at level 100, m at next level, right associativity) : handler_scope.
Notation "m ;; k" := (bind m (fun _ => k))
  (at level 100, right associativity) : handler_scope.
Open Scope handler_scope.

Definition get : M Handler := fun w => (Ok (self w), w).

Definition modify (f : Handler -> Handler) : M unit :=
  fun w => (Ok tt, {| self := f (self w); trace := trace w |}).

Definition emit (e : Event) : M unit :=
  fun w => (Ok tt, {| self := self w; trace := trace w ++ [e] |}).

Definition when (b : bool) (m : M unit) : M unit := if b then m else ret tt.

(** [try: body except Exception as e: handler(e)] *)
Definition try_except_Exception {A} (body : M A) (handler : Exn -> M A) : M A :=
  fun w =>
    match body w with
    | (Ok a, w') => (Ok a, w')
    | (Raise e, w') => if is_Exception e then handler e w' else (Raise e, w')
    end.

(** A base-class method that only reads and assigns attributes. *)
Definition Method (A : Type) : Type := Handler -> Res A * Handler.

(** A hook or collaborator: it may assign attributes and use the transport,
    and returns or raises. *)
Definition Hook (A : Type) : Type := Handler -> Res A * Handler * list Wire.

Definition run_method {A} (m : Method A) : M A :=
  fun w => let '(r, h) := m (self w) in (r, {| self := h; trace := trace w |}).

(** Calling a hook is recorded in the trace, followed by what the hook sent. *)
Definition call {A} (c : Callee) (f : Hook A) : M A :=
  fun w =>
    let '(r, h, ws) := f (self w) in
    (r, {| self := h; trace := trace w ++ Called c :: (Sent <$> ws) |}).

(** What [prepare()] may hand to [_when_complete]. *)
Inductive PrepareResult : Type :=
| prepared_None
| prepared_Future (done : bool)
| prepared_other.

(** The argument of [finish] and [write]: a byte string, or a dict, which
    [write] sends in its JSON encoding. *)
Inductive Chunk : Type :=
| chunk_bytes (b : bytes)
| chunk_dict (json : bytes).

(** ** What the handler inherits and what subclasses override

    The parts of [tornado.web.RequestHandler], of the routing collaborator
    and of user subclasses that the methods of [httpbase.py] call and whose
    code is not in this repository. *)
Class Inherited : Type := {
  (** class attribute: the methods a handler answers *)
  SUPPORTED_METHODS : list string;
  (** the headers [clear()] starts a response with *)
  default_headers : HTTPRequest -> gmap string string;
  (** the validator token of the buffered body, or [None] *)
  compute_etag : Handler -> option string;
  (** does the request's conditional header match the [Etag] header set? *)
  check_etag_header : Handler -> bool;
  (** the entity headers [_clear_headers_for_304] removes *)
  headers_cleared_for_304 : list string;
  (** status line and header lines, as bytes *)
  _generate_headers : Handler -> Res bytes;
  initialize : Hook unit;
  _log : Hook unit;
  on_finish : Hook unit;
  check_xsrf_cookie : Hook unit;
  prepare : Hook PrepareResult;
  _handle_request_exception : Exn -> Hook unit;
  (** [self.application.root._handle_request(self)] *)
  root_handle_request : Hook unit;
  (** runs the callback once the result of [prepare()] is available *)
  _when_complete : PrepareResult -> M unit -> M unit;
}.

Section RequestHandler.

Context `{Inherited}.

(** *** Base-class methods that assign attributes *)

(** [set_header(name, value)] *)
Definition set_header (name value : string) : Method unit :=
  fun h => (Ok tt, set_headers (<[name := value]> (_headers h)) h).

(** [set_status(status_code)] *)
Definition set_status (code : Z) : Method unit :=
  fun h => (Ok tt, set_status_code code h).

(** [set_etag_header()]: sets [Etag] to [compute_etag()] unless that is
    [None]. *)
Definition set_etag_header : Method unit :=
  fun h =>
    match compute_etag h with
    | Some etag => set_header "Etag" etag h
    | None => (Ok tt, h)
    end.

(** [_clear_headers_for_304()]: clears each of the entity headers that a
    304 response must not carry. *)
Definition _clear_headers_for_304 : Method unit :=
  fun h =>
    (Ok tt,
     set_headers (foldr (fun name hd => delete name hd) (_headers h)
                        headers_cleared_for_304) h).

(** [write(chunk)]: refuses to write to a finished response, otherwise
    appends the chunk to the write buffer. *)
Definition write (chunk : Chunk) : Method unit :=
  fun h =>
    if _finished h then
      (Raise (RuntimeError "Cannot write() after finish()."), h)
    else
      match chunk with
      | chunk_bytes b => (Ok tt, set_write_buffer (_write_buffer h ++ [b]) h)
      | chunk_dict json =>
          let h := set_headers
                     (<["Content-Type" := "application/json; charset=UTF-8"]>
                        (_headers h)) h in
          (Ok tt, set_write_buffer (_write_buffer h ++ [json]) h)
      end.

(** [clear()]: a fresh set of headers, an empty buffer, status 200. *)
Definition clear : Method unit :=
  fun h =>
    (Ok tt,
     set_status_code 200
       (set_write_buffer [] (set_headers (default_headers (request h)) h))).

(** *** [RequestHandler.__init__] (lines 67-80) *)

Definition __init__ (app : Application) (req : HTTPRequest) : Res unit * World :=
  let h := {| application := app;
              request := req;
              _headers_written := false;
              _finished := false;
              _auto_finish := false;   (* vanilla tornado defaults to True *)
              _transforms := None;     (* will be set in _execute *)
              _write_buffer := [];
              _status_code := 0;
              _headers := ∅ |} in
  (run_method clear ;;
   call c_initialize initialize) {| self := h; trace := [] |}.

(** *** [flush] (lines 115-144) *)

(** [for transform in self._transforms:
       self._status_code, self._headers, chunk =
           transform.transform_first_chunk(...)]
    over the transforms still to run; [seen] are the ones already run. *)
Fixpoint first_chunk_loop (seen todo : list Transform)
    (include_footers : bool) (chunk : bytes) : M bytes :=
  match todo with
  | [] => ret chunk
  | t :: rest =>
      h <- get ;;
      let '(t', r) :=
        transform_first_chunk t (_status_code h) (_headers h) chunk
                              include_footers in
      modify (set_transforms (Some (seen ++ t' :: rest))) ;;
      match r with
      | Raise e => raise e
      | Ok (status, headers, chunk') =>
          modify (set_status_code status) ;;
          modify (set_headers headers) ;;
          first_chunk_loop (seen ++ [t']) rest include_footers chunk'
      end
  end.

(** [for transform in self._transforms:
       chunk = transform.transform_chunk(chunk, include_footers)] *)
Fixpoint chunk_loop (seen todo : list Transform)
    (include_footers : bool) (chunk : bytes) : M bytes :=
  match todo with
  | [] => ret chunk
  | t :: rest =>
      let '(t', r) := transform_chunk t chunk include_footers in
      modify (set_transforms (Some (seen ++ t' :: rest))) ;;
      match r with
      | Raise e => raise e
      | Ok chunk' => chunk_loop (seen ++ [t']) rest include_footers chunk'
      end
  end.

(** Iterating over [self._transforms]; [None] is not iterable. *)
Definition for_transforms (loop : list Transform -> list Transform -> M bytes)
  : M bytes :=
  h <- get ;;
  match _transforms h with
  | None => raise (TypeError "'NoneType' object is not iterable")
  | Some ts => loop [] ts
  end.

Definition bytes_nonempty (b : bytes) : bool := negb (String.eqb b "").

Definition flush (include_footers : bool) (callback : option Callback) : M unit :=
  h <- get ;;
  let chunk := join (_write_buffer h) in
  modify (set_write_buffer []) ;;
  hc <- (if negb (_headers_written h) then
           modify (set_headers_written true) ;;
           chunk <- for_transforms
                      (fun seen todo =>
                         first_chunk_loop seen todo include_footers chunk) ;;
           h <- get ;;
           match _generate_headers h with
           | Raise e => raise e
           | Ok headers => ret (headers, chunk)
           end
         else
           chunk <- for_transforms
                      (fun seen todo =>
                         chunk_loop seen todo include_footers chunk) ;;
           ret (""%string, chunk)) ;;
  let '(headers, chunk) := hc in
  (* Ignore the chunk and only write the headers for HEAD requests *)
  if String.eqb (method (request h)) "HEAD" then
    when (bytes_nonempty headers) (emit (Sent (request_write headers callback)))
  else
    emit (Sent (request_write (headers +:+ chunk) callback)).

(** *** [finish] (lines 146-184) *)

Definition finish_twice_msg : string :=
  "finish() called twice.  May be caused by using async operations without the @asynchronous decorator.".

(** Lines 159-161: a plain 200 answer to a GET or HEAD that has no [Etag]
    header yet. *)
Definition wants_etag (h : Handler) : bool :=
  (_status_code h =? 200)
  && bool_decide (method (request h) ∈ ["GET"; "HEAD"]%string)
  && negb (bool_decide (is_Some (_headers h !! "Etag"%string))).

(** Lines 169-171: unless a [Content-Length] header is there already, set
    it to the size of the buffered body. *)
Definition default_content_length : Method unit :=
  fun h =>
    if negb (bool_decide (is_Some (_headers h !! "Content-Length"%string))) then
      let content_length := sum_len (_write_buffer h) in
      set_header "Content-Length" (pretty content_length) h
    else (Ok tt, h).

(** Lines 156-171: automatically support ETags and add the Content-Length
    header if we have not flushed any content yet. *)
Definition finish_headers : M unit :=
  h <- get ;;
  when (negb (_headers_written h))
    (when (wants_etag h)
       (run_method set_etag_header ;;
        h <- get ;;
        when (check_etag_header h)
          (modify (set_write_buffer []) ;;
           run_method (set_status 304))) ;;
     h <- get ;;
     if _status_code h =? 304 then
       match _write_buffer h with
       | [] => ret tt
       | _ :: _ => raise (AssertionError "Cannot send body with 304")
       end ;;
       run_method _clear_headers_for_304
     else
       run_method default_content_length).

(** Whether [finish] sends the response as a 304: it is one already, or
    the [Etag] that [finish] sets matches the request's conditional
    header. *)
Definition not_modified (h : Handler) : bool :=
  (_status_code h =? 304)
  || (wants_etag h && check_etag_header (set_etag_header h).2).

(** Lines 173-184: detach the close callback, flush with footers, finish
    the request, log, mark finished, run [on_finish]. *)
Definition finish_send : M unit :=
  h <- get ;;
  when (has_connection (request h)) (emit (Sent set_close_callback_None)) ;;
  flush true None ;;
  emit (Sent request_finish) ;;
  call c_log _log ;;
  modify (set_finished true) ;;
  call c_on_finish on_finish.

Definition finish (chunk : option Chunk) : M unit :=
  h <- get ;;
  if _finished h then raise (RuntimeError finish_twice_msg) else
  match chunk with
  | Some c => run_method (write c)
  | None => ret tt
  end ;;
  finish_headers ;;
  finish_send.

(** The handler once the chunk given to [finish] is in the buffer. *)
Definition buffered (chunk : option Chunk) (h : Handler) : Handler :=
  match chunk with
  | Some c => (write c h).2
  | None => h
  end.

(** *** [_execute] and [_execute_method] (lines 195-212) *)

Definition _execute_method : M unit :=
  call c_handle_request root_handle_request.

(** The body of the [try] (lines 199-207). *)
Definition _execute_try : M unit :=
  h <- get ;;
  when (negb (bool_decide (method (request h) ∈ SUPPORTED_METHODS)))
    (raise (HTTPError 405)) ;;
  (* If XSRF cookies are turned on, reject form submissions without
     the proper cookie *)
  when (negb (bool_decide
                (method (request h) ∈ ["GET"; "HEAD"; "OPTIONS"]%string))
        && truthy (settings_get (application h) "xsrf_cookies"))
    (call c_check_xsrf_cookie check_xsrf_cookie) ;;
  result <- call c_prepare prepare ;;
  emit (Called c_when_complete) ;;
  _when_complete result _execute_method.

Definition _execute (transforms : list Transform) : M unit :=
  modify (set_transforms (Some transforms)) ;;
  try_except_Exception _execute_try
    (fun e => call (c_handle_request_exception e) (_handle_request_exception e)).

(** *** [Application.__call__] (lines 46-52)

    The two scopes entered around the handler belong to [rw.scope]; they
    do not touch the handler. *)
Definition __call__ (app : Application) (req : HTTPRequest) : Res unit * World :=
  match __init__ app req with
  | (Ok _, w) => _execute [] w
  | (Raise e, w) => (Raise e, w)
  end.

(** *** Sequences of operations on one handler *)

Inductive Op : Type :=
| op_write (chunk : Chunk)
| op_flush (include_footers : bool) (callback : option Callback)
| op_finish (chunk : option Chunk).

Definition run_op (op : Op) : M unit :=
  match op with
  | op_write chunk => run_method (write chunk)
  | op_flush include_footers callback => flush include_footers callback
  | op_finish chunk => finish chunk
  end.

(** The world after a sequence of operations; a caller that sees an
    operation raise goes on with the handler as the operation left it. *)
Definition run_ops (ops : list Op) (w : World) : World :=
  foldl (fun w op => (run_op op w).2) w ops.

(** The world after each operation of the sequence. *)
Fixpoint history (ops : list Op) (w : World) : list World :=
  match ops with
  | [] => []
  | op :: rest => let w' := (run_op op w).2 in w' :: history rest w'
  end.

End RequestHandler.

(** ** Contracts of hooks *)

(** The handler a hook leaves behind. *)
Definition hook_self {A} (f : Hook A) (h : Handler) : Handler := (f h).1.2.

(** A hook that does not assign the attribute [attr]. *)
Definition keeps {A B} (attr : Handler -> B) (f : Hook A) : Prop :=
  forall h, attr (hook_self f h) = attr h.

(** A hook that leaves the bookkeeping of the response alone. *)
Definition keeps_lifecycle {A} (f : Hook A) : Prop :=
  keeps _finished f /\ keeps _headers_written f /\ keeps _write_buffer f.

(** [h'] differs from [h] at most in status, headers and the transform
    objects: the request, the flags and the write buffer are the same. *)
Definition frame (h h' : Handler) : Prop :=
  request h' = request h /\ application h' = application h /\
  _finished h' = _finished h /\ _headers_written h' = _headers_written h /\
  _write_buffer h' = _write_buffer h /\ _auto_finish h' = _auto_finish h.

(** The flag goes from false to true at most once along the list and never
    back: some falses, then only trues. *)
Definition flips_once (flags : list bool) : Prop :=
  exists n m, flags = replicate n false ++ replicate m true.

(** The dispatch reached [_handle_request_exception]. *)
Definition handled (t : list Event) : Prop :=
  exists e, Called (c_handle_request_exception e) ∈ t.


(** ** A concrete handler class

    Instances of [Inherited] close to what an unmodified tornado base
    class provides, on which the statements below are exercised. *)
Module Plain.

Definition CRLF : string :=
  String (Ascii.ascii_of_nat 13) (String (Ascii.ascii_of_nat 10) "").

Definition reason (code : Z) : string :=
  if code =? 200 then "OK"
  else if code =? 304 then "Not Modified"
  else if code =? 403 then "Forbidden"
  else if code =? 405 then "Method Not Allowed"
  else "Unknown".

Definition header_line (kv : string * string) : string :=
  kv.1 +:+ ": " +:+ kv.2 +:+ CRLF.

Definition generate_headers (h : Handler) : Res bytes :=
  Ok ("HTTP/1.1 " +:+ pretty (_status_code h) +:+ " " +:+ reason (_status_code h)
      +:+ CRLF +:+ join (header_line <$> map_to_list (_headers h)) +:+ CRLF).

(** A stand-in for the digest of the buffered body. *)
Definition etag_of_buffer (h : Handler) : option string :=
  Some ("etag-" +:+ pretty (sum_len (_write_buffer h)) +:+ "-"
        +:+ join (_write_buffer h)).

Definition if_none_match (h : Handler) : bool :=
  match _headers h !! "Etag"%string,
        request_headers (request h) !! "If-None-Match"%string with
  | Some etag, Some inm =>
      bytes_nonempty etag && bytes_nonempty inm
      && bool_decide (is_Some (String.index 0 etag inm))
  | _, _ => false
  end.

Definition nothing : Hook unit := fun h => (Ok tt, h, []).

Definition xsrf_check : Hook unit :=
  fun h =>
    match request_headers (request h) !! "X-Xsrftoken"%string,
          request_headers (request h) !! "Cookie"%string with
    | Some token, Some cookie =>
        if String.eqb token cookie then (Ok tt, h, [])
        else (Raise (HTTPError 403), h, [])
    | _, _ => (Raise (HTTPError 403), h, [])
    end.

Definition error_status (e : Exn) : Z :=
  match e with
  | HTTPError status => status
  | _ => 500
  end.

(** Answers an exception with a bare error response, unless the response
    is already finished. *)
Definition send_error (e : Exn) : Hook unit :=
  fun h =>
    if _finished h then (Ok tt, h, [])
    else
      let h1 := set_headers_written true
                  (set_write_buffer [] (set_status_code (error_status e) h)) in
      match generate_headers h1 with
      | Ok block => (Ok tt, set_finished true h1,
                     [request_write block None; request_finish])
      | Raise e' => (Raise e', h1, [])
      end.

Definition when_complete (result : PrepareResult) (callback : M unit) : M unit :=
  try_except_Exception
    match result with
    | prepared_None => callback
    | prepared_Future true => callback
    | prepared_Future false => ret tt
    | prepared_other => raise (ValueError "Expected Future or None")
    end
    (fun e => call (c_handle_request_exception e) (send_error e)).

Definition all_methods : list string :=
  ["GET"; "HEAD"; "POST"; "DELETE"; "PATCH"; "PUT"; "OPTIONS"]%string.

Definition handler_with (methods : list string) (prepare_hook : Hook PrepareResult)
  : Inherited := {|
  SUPPORTED_METHODS := methods;
  default_headers := fun _ =>
    {[ "Server"%string := "TornadoServer"%string;
       "Content-Type"%string := "text/html; charset=UTF-8"%string ]};
  compute_etag := etag_of_buffer;
  check_etag_header := if_none_match;
  headers_cleared_for_304 :=
    ["Allow"; "Content-Encoding"; "Content-Language"; "Content-Length";
     "Content-MD5"; "Content-Range"; "Content-Type"; "Last-Modified"]%string;
  _generate_headers := generate_headers;
  initialize := nothing;
  _log := nothing;
  on_finish := nothing;
  check_xsrf_cookie := xsrf_check;
  prepare := prepare_hook;
  _handle_request_exception := send_error;
  root_handle_request := nothing;
  _when_complete := when_complete;
|}.

Definition prepared : Hook PrepareResult := fun h => (Ok prepared_None, h, []).

Definition handler : Inherited := handler_with all_methods prepared.

(** A handler class that answers GET and HEAD only. *)
Definition read_only : Inherited := handler_with ["GET"; "HEAD"]%string prepared.

(** A handler class whose [prepare] raises. *)
Definition failing_prepare : Inherited :=
  handler_with all_methods (fun h => (Raise (OtherException "KeyError"), h, [])).

Definition app : Application := {| settings := ∅ |}.

Definition app_xsrf : Application :=
  {| settings := {[ "xsrf_cookies"%string := PyBool true ]} |}.

Definition req (m : string) (headers : gmap string string) : HTTPRequest :=
  {| method := m; request_headers := headers; has_connection := true |}.

(** A handler as [Application.__call__] hands it to user code: constructed,
    and dispatched with the empty transform list. *)
Definition fresh (a : Application) (r : HTTPRequest) : World :=
  let w := (@__init__ handler a r).2 in
  {| self := set_transforms (Some []) (self w); trace := [] |}.

(** The same with [b"ab"] and [b"cd"] written. *)
Definition ab_cd (r : HTTPRequest) : World :=
  let w := fresh app r in
  {| self := set_write_buffer ["ab"; "cd"]%string (self w); trace := [] |}.

End Plain.

(** ** Reading the transport *)

(** The bytes of one event: the data of a [request.write], nothing for
    anything else. *)
Definition wire_data (e : Event) : bytes :=
  match e with
  | Sent (request_write data _) => data
  | _ => ""%string
  end.

(** All the bytes written to the transport, in order. *)
Definition wire_bytes (t : list Event) : bytes := join (wire_data <$> t).

Definition is_request_finish (e : Event) : bool :=
  match e with
  | Sent request_finish => true
  | _ => false
  end.

(** How many times [request.finish()] was called. *)
Definition finishes (t : list Event) : nat :=
  foldr (fun e n => if is_request_finish e then S n else n) 0%nat t.

(** The operations of a streamed response: byte chunks written and
    flushed. *)
Definition streams (op : Op) : bool :=
  match op with
  | op_write (chunk_bytes _) => true
  | op_flush _ _ => true
  | _ => false
  end.

(** The byte chunks a sequence of operations writes. *)
Definition chunks_of (ops : list Op) : list bytes :=
  flat_map (fun op => match op with
                      | op_write (chunk_bytes b) => [b]
                      | _ => []
                      end) ops.

(** What a streamed response still owes the transport: the header block
    unless it is written, then the buffered bytes. *)
Definition pending (block : bytes) (h : Handler) : bytes :=
  ((if _headers_written h then "" else block) +:+ join (_write_buffer h))%string.

(** A response that can be streamed as it is: not a HEAD request, not
    finished, dispatched with the empty transform list, and with [block]
    for its header block if that is still to be written. *)
Definition streamable `{Inherited} (block : bytes) (h : Handler) : Prop :=
  _transforms h = Some [] /\
  _finished h = false /\
  method (request h) <> "HEAD"%string /\
  (_headers_written h = false ->
   _generate_headers (set_headers_written true (set_write_buffer [] h)) = Ok block).

(** What [finish] puts on the trace up to the end of its flush: the
    detaching of the close callback when the request has a connection, then
    what the flush wrote. *)
Definition flushed (h : Handler) (writes : list Wire) : list Event :=
  (if has_connection (request h) then [Sent set_close_callback_None] else [])
  ++ (Sent <$> writes).

(** How the trace goes on when the flush of [finish] succeeded: the
    transport is finished, then the access log runs. *)
Definition logged (sent : list Wire) : list Event :=
  [Sent request_finish; Called c_log] ++ (Sent <$> sent).

(** ** [Application.__init__] (lines 26-44) *)

(** The handler class an application instantiates per request. *)
Inductive HandlerClass : Type :=
| RequestHandler_class
| other_class (name : string).

(** The root module: its truth value ([if self.root:]) is all the
    constructor looks at before calling [setup()]. *)
Record RootModule : Type := {
  root_name : string;
  root_truthy : bool;
}.

(** The attributes [Application.__init__] assigns. *)
Record ApplicationObject : Type := {
  app_settings : gmap string PyVal;
  app_root : option RootModule;
  app_handler : option HandlerClass;
  app_wsgi : bool;
}.

(** What the constructor calls: [root.setup()] and [rw.scope.Scope()]. *)
Inductive SetupEvent : Type :=
| root_setup (root : RootModule)
| Scope_created.

(** [if self.root:] *)
Definition root_given (root : option RootModule) : option RootModule :=
  match root with
  | Some r => if root_truthy r then Some r else None
  | None => None
  end.

(** [setup] is what [root.setup()] does: it returns or raises. *)
Definition Application__init__ (setup : RootModule -> Res unit)
    (handler : option HandlerClass) (root : option RootModule)
  : Res ApplicationObject * list SetupEvent :=
  match root_given root with
  | Some r =>
      match setup r with
      | Raise e => (Raise e, [root_setup r])
      | Ok _ =>
          (Ok {| app_settings := ∅;
                 app_root := root;
                 app_handler :=
                   Some (match handler with
                         | Some c => c
                         | None => RequestHandler_class
                         end);
                 app_wsgi := false |},   (* wsgi is not supported *)
           [root_setup r; Scope_created])
      end
  | None =>
      match handler with
      | None => (Raise (AssertionError ""), [])
      | Some c =>
          (Ok {| app_settings := ∅;
                 app_root := root;
                 app_handler := Some c;
                 app_wsgi := false |},
           [Scope_created])
      end
  end.

(** The application as a handler sees it. *)
Definition application_of (a : ApplicationObject) : Application :=
  {| settings := app_settings a |}.

(** ** [CachedPartExtension._cache_support] (future.py, lines 48-62)

    The body of a [part] block is rendered by [caller]; the reads and
    writes of the fragment cache are commented out in the source. *)
Module Future.

(** The renderer state [S] is whatever [caller()] reads and changes; the
    second component is what was printed. *)
Definition _cache_support {S : Type} (name : string) (timeout : option Z)
    (caller : S -> Res string * S) (s : S * list string)
  : Res string * (S * list string) :=
  let printed := s.2 ++ ["get cache " +:+ name] in
  let '(rv, s') := caller s.1 in
  (rv, (s', printed)).

(** One [part] block after the other; a block that raises ends the
    rendering. *)
Fixpoint render_parts {S : Type} (parts : list (string * option Z))
    (caller : S -> Res string * S) (s : S * list string)
  : Res (list string) * (S * list string) :=
  match parts with
  | [] => (Ok [], s)
  | (name, timeout) :: rest =>
      match _cache_support name timeout caller s with
      | (Raise e, s') => (Raise e, s')
      | (Ok rv, s') =>
          match render_parts rest caller s' with
          | (Raise e, s'') => (Raise e, s'')
          | (Ok rvs, s'') => (Ok (rv :: rvs), s'')
          end
      end
  end.

End Future.

(** ** More handler classes to exercise the statements on *)
Module Variants.

(** The plain class with another [_log]. *)
Definition with_log (log : Hook unit) : Inherited := {|
  SUPPORTED_METHODS := @SUPPORTED_METHODS Plain.handler;
  default_headers := @default_headers Plain.handler;
  compute_etag := @compute_etag Plain.handler;
  check_etag_header := @check_etag_header Plain.handler;
  headers_cleared_for_304 := @headers_cleared_for_304 Plain.handler;
  _generate_headers := @_generate_headers Plain.handler;
  initialize := @initialize Plain.handler;
  _log := log;
  on_finish := @on_finish Plain.handler;
  check_xsrf_cookie := @check_xsrf_cookie Plain.handler;
  prepare := @prepare Plain.handler;
  _handle_request_exception := @_handle_request_exception Plain.handler;
  root_handle_request := @root_handle_request Plain.handler;
  _when_complete := @_when_complete Plain.handler;
|}.

(** A class whose access log raises. *)
Definition failing_log : Inherited :=
  with_log (fun h => (Raise (OtherException "IOError"), h, [])).

(** The plain class with another [initialize]. *)
Definition with_initialize (init : Hook unit) : Inherited := {|
  SUPPORTED_METHODS := @SUPPORTED_METHODS Plain.handler;
  default_headers := @default_headers Plain.handler;
  compute_etag := @compute_etag Plain.handler;
  check_etag_header := @check_etag_header Plain.handler;
  headers_cleared_for_304 := @headers_cleared_for_304 Plain.handler;
  _generate_headers := @_generate_headers Plain.handler;
  initialize := init;
  _log := @_log Plain.handler;
  on_finish := @on_finish Plain.handler;
  check_xsrf_cookie := @check_xsrf_cookie Plain.handler;
  prepare := @prepare Plain.handler;
  _handle_request_exception := @_handle_request_exception Plain.handler;
  root_handle_request := @root_handle_request Plain.handler;
  _when_complete := @_when_complete Plain.handler;
|}.

(** A class whose [initialize] raises. *)
Definition failing_initialize : Inherited :=
  with_initialize (fun h => (Raise (OtherException "KeyError"), h, [])).

(** A class whose [prepare] is interrupted from the keyboard. *)
Definition interrupted_prepare : Inherited :=
  Plain.handler_with Plain.all_methods
    (fun h => (Raise (SystemExiting "KeyboardInterrupt"), h, [])).

(** A class that answers GET and HEAD only, and whose exception handler
    raises again the exception it was given. *)
Definition reraising : Inherited := {|
  SUPPORTED_METHODS := @SUPPORTED_METHODS Plain.read_only;
  default_headers := @default_headers Plain.handler;
  compute_etag := @compute_etag Plain.handler;
  check_etag_header := @check_etag_header Plain.handler;
  headers_cleared_for_304 := @headers_cleared_for_304 Plain.handler;
  _generate_headers := @_generate_headers Plain.handler;
  initialize := @initialize Plain.handler;
  _log := @_log Plain.handler;
  on_finish := @on_finish Plain.handler;
  check_xsrf_cookie := @check_xsrf_cookie Plain.handler;
  prepare := @prepare Plain.handler;
  _handle_request_exception := fun e h => (Raise e, h, []);
  root_handle_request := @root_handle_request Plain.handler;
  _when_complete := @_when_complete Plain.handler;
|}.

(** A transform that fails on every chunk. *)
Definition broken_transform : Transform := {|
  T_state := unit;
  T_now := tt;
  T_first_chunk := fun _ _ _ _ _ => (tt, Raise (ValueError "broken"));
  T_chunk := fun _ _ _ => (tt, Raise (ValueError "broken"));
|}.

(** A handler with status 200, [b"ab"] and [b"cd"] buffered, and the
    headers given. *)
Definition with_headers (r : HTTPRequest) (headers : gmap string string) : World :=
  {| self := set_headers headers (self (Plain.ab_cd r)); trace := [] |}.

End Variants.

(** ** Reasoning about the monad *)

Lemma bind_Ok_inv {A B} (m : M A) (k : A -> M B) (w w' : World) (b : B) :
  bind m k w = (Ok b, w') ->
  exists a w1, m w = (Ok a, w1) /\ k a w1 = (Ok b, w').
Proof.
  unfold bind. destruct (m w) as [[a|e] w1]; intros Hk.
  - exists a, w1. split; [reflexivity | exact Hk].
  - discriminate Hk.
Qed.

Lemma bind_Ok_eq {A B} (m : M A) (k : A -> M B) (w w1 : World) (a : A) :
  m w = (Ok a, w1) -> bind m k w = k a w1.
Proof. intros Hm. unfold bind. rewrite Hm. reflexivity. Qed.

Lemma bind_Raise_eq {A B} (m : M A) (k : A -> M B) (w w1 : World) (e : Exn) :
  m w = (Raise e, w1) -> bind m k w = (Raise e, w1).
Proof. intros Hm. unfold bind. rewrite Hm. reflexivity. Qed.

Lemma call_self {A} (c : Callee) (f : Hook A) (w : World) :
  self (call c f w).2 = hook_self f (self w).
Proof.
  unfold call, hook_self. destruct (f (self w)) as [[r h] ws]. reflexivity.
Qed.



Lemma append_empty_r (s : string) : (s +:+ "")%string = s.
Proof.
  induction s as [|a s IH]; [reflexivity |].
  change (String a (s +:+ "") = String a s). f_equal. exact IH.
Qed.

Lemma frame_refl (h : Handler) : frame h h.
Proof. unfold frame. tauto. Qed.

Lemma frame_trans (h1 h2 h3 : Handler) : frame h1 h2 -> frame h2 h3 -> frame h1 h3.
Proof. unfold frame. intuition congruence. Qed.

#[local] Hint Resolve frame_refl : core.

Ltac frame_solve := unfold frame in *; simpl in *; intuition congruence.

Section Lifecycle.

Context `{Inherited}.

(** *** The transform loops touch neither the transport nor the lifecycle *)

Lemma first_chunk_loop_frame (todo seen : list Transform) (fin : bool)
    (chunk : bytes) (w : World) :
  trace (first_chunk_loop seen todo fin chunk w).2 = trace w /\
  frame (self w) (self (first_chunk_loop seen todo fin chunk w).2).
Proof.
  revert seen chunk w.
  induction todo as [|t rest IH]; intros seen chunk w; simpl.
  - split; [reflexivity | apply frame_refl].
  - unfold bind, get, modify, raise; simpl.
    destruct (transform_first_chunk t (_status_code (self w))
                (_headers (self w)) chunk fin) as [t' [[[st hd] ck]|e]];
      simpl.
    + match goal with
      | |- context [first_chunk_loop ?s rest fin ck ?w1] =>
          destruct (IH s ck w1) as [Ht Hf]
      end.
      simpl in Ht, Hf. split; [exact Ht |].
      refine (frame_trans _ _ _ _ Hf). unfold frame; simpl; tauto.
    + split; [reflexivity | unfold frame; simpl; tauto].
Qed.

Lemma chunk_loop_frame (todo seen : list Transform) (fin : bool)
    (chunk : bytes) (w : World) :
  trace (chunk_loop seen todo fin chunk w).2 = trace w /\
  frame (self w) (self (chunk_loop seen todo fin chunk w).2).
Proof.
  revert seen chunk w.
  induction todo as [|t rest IH]; intros seen chunk w; simpl.
  - split; [reflexivity | apply frame_refl].
  - unfold bind, modify, raise; simpl.
    destruct (transform_chunk t chunk fin) as [t' [ck|e]]; simpl.
    + match goal with
      | |- context [chunk_loop ?s rest fin ck ?w1] =>
          destruct (IH s ck w1) as [Ht Hf]
      end.
      simpl in Ht, Hf. split; [exact Ht |].
      refine (frame_trans _ _ _ _ Hf). unfold frame; simpl; tauto.
    + split; [reflexivity | unfold frame; simpl; tauto].
Qed.

Lemma for_transforms_frame (loop : list Transform -> list Transform -> M bytes)
    (w : World) :
  (forall seen todo w0,
      trace (loop seen todo w0).2 = trace w0 /\
      frame (self w0) (self (loop seen todo w0).2)) ->
  trace (for_transforms loop w).2 = trace w /\
  frame (self w) (self (for_transforms loop w).2).
Proof.
  intros Hloop. unfold for_transforms, bind, get; simpl.
  destruct (_transforms (self w)) as [ts|].
  - apply Hloop.
  - split; [reflexivity | apply frame_refl].
Qed.

(** *** What one [flush] does *)

Lemma flush_spec (fin : bool) (cb : option Callback) (w w' : World) (r : Res unit) :
  flush fin cb w = (r, w') ->
  frame (set_headers_written true (set_write_buffer [] (self w))) (self w') /\
  (trace w' = trace w \/
   exists block chunk,
     r = Ok tt /\
     (if _headers_written (self w) then block = ""%string
      else _generate_headers (self w') = Ok block) /\
     (method (request (self w)) = "HEAD"%string -> block <> ""%string) /\
     trace w' =
       trace w ++
       [Sent (request_write
                (if String.eqb (method (request (self w))) "HEAD"
                 then block else block +:+ chunk) cb)]).
Proof.
  intros Hrun. unfold flush, bind, get, modify in Hrun; simpl in Hrun.
  destruct (_headers_written (self w)) eqn:Hhw; simpl in Hrun.
  - match type of Hrun with
    | context [for_transforms ?loop ?w1] =>
        destruct (for_transforms_frame loop w1
                    (fun s t w0 => chunk_loop_frame t s fin _ w0)) as [Ht Hf];
        destruct (for_transforms loop w1) as [[ck|e] w2]
    end; simpl in *.
    + destruct (String.eqb_spec (method (request (self w))) "HEAD") as [Hm|Hm].
      * injection Hrun as <- <-. split; [frame_solve | left; exact Ht].
      * unfold emit in Hrun. injection Hrun as <- <-. simpl.
        split; [frame_solve |]. right. exists ""%string, ck.
        rewrite Ht. repeat split; [congruence].
    + injection Hrun as <- <-. split; [frame_solve | left; exact Ht].
  - match type of Hrun with
    | context [for_transforms ?loop ?w1] =>
        destruct (for_transforms_frame loop w1
                    (fun s t w0 => first_chunk_loop_frame t s fin _ w0)) as [Ht Hf];
        destruct (for_transforms loop w1) as [[ck|e] w2]
    end; simpl in *.
    + destruct (_generate_headers (self w2)) as [block|e] eqn:Hgen; simpl in Hrun.
      * destruct (String.eqb_spec (method (request (self w))) "HEAD") as [Hm|Hm].
        -- unfold when, bytes_nonempty in Hrun.
           destruct (String.eqb_spec block "") as [Hb|Hb]; simpl in Hrun.
           ++ injection Hrun as <- <-. split; [frame_solve | left; exact Ht].
           ++ unfold emit in Hrun. injection Hrun as <- <-. simpl.
              split; [frame_solve |]. right. exists block, ck.
              rewrite Ht. repeat split; [exact Hgen | congruence].
        -- unfold emit in Hrun. injection Hrun as <- <-. simpl.
           split; [frame_solve |]. right. exists block, ck.
           rewrite Ht. repeat split; [exact Hgen | congruence].
      * unfold raise in Hrun. injection Hrun as <- <-.
        split; [frame_solve | left; exact Ht].
    + injection Hrun as <- <-. split; [frame_solve | left; exact Ht].
Qed.

(** With the empty transform list, the first flush sends the header block
    of the handler as it stands, followed by the buffered body. *)
Lemma flush_first_plain (fin : bool) (cb : option Callback) (w : World)
    (block : bytes) :
  _transforms (self w) = Some [] ->
  _headers_written (self w) = false ->
  _generate_headers (set_headers_written true (set_write_buffer [] (self w)))
    = Ok block ->
  (method (request (self w)) = "HEAD"%string -> block <> ""%string) ->
  flush fin cb w =
    (Ok tt,
     {| self := set_headers_written true (set_write_buffer [] (self w));
        trace := trace w ++
                 [Sent (request_write
                          (if String.eqb (method (request (self w))) "HEAD"
                           then block
                           else block +:+ join (_write_buffer (self w))) cb)] |}).
Proof.
  intros Hts Hhw Hgen Hne.
  unfold flush, for_transforms. unfold bind, get, modify, ret; simpl.
  rewrite Hhw; simpl. rewrite Hts; simpl. rewrite Hgen; simpl.
  destruct (String.eqb_spec (method (request (self w))) "HEAD") as [Hm|Hm].
  - unfold when, bytes_nonempty.
    destruct (String.eqb_spec block "") as [Hb|Hb]; [| reflexivity].
    destruct (Hne Hm Hb).
  - reflexivity.
Qed.

(** C2.  On a HEAD request [flush] never sends a body, whatever the write
    buffer holds: either nothing reaches the transport, or exactly one
    write carrying the header block that was generated by this very flush
    (which then is the first one) and nothing after it; the buffered chunks
    are dropped from the buffer and appear in no write. *)
Theorem flush_HEAD_sends_no_body (fin : bool) (cb : option Callback) (w : World) :
  method (request (self w)) = "HEAD"%string ->
  let w' := (flush fin cb w).2 in
  _write_buffer (self w') = [] /\
  (trace w' = trace w \/
   exists block,
     _headers_written (self w) = false /\
     _generate_headers (self w') = Ok block /\
     block <> ""%string /\
     trace w' = trace w ++ [Sent (request_write block cb)]).
Proof.
  intros Hm w'. subst w'.
  destruct (flush fin cb w) as [r w'] eqn:Hrun. simpl.
  apply flush_spec in Hrun as [Hf Htrace].
  split; [frame_solve |].
  destruct Htrace as [Hsame | (block & chunk & _ & Hblock & Hne & Ht)].
  - left. exact Hsame.
  - right. exists block. specialize (Hne Hm).
    rewrite Hm in Ht. simpl in Ht.
    destruct (_headers_written (self w)); [contradiction |].
    repeat split; assumption.
Qed.

(** *** What [finish] does before it flushes *)

Lemma finish_finished (chunk : option Chunk) (w : World) :
  _finished (self w) = true ->
  finish chunk w = (Raise (RuntimeError finish_twice_msg), w).
Proof.
  intros Hfin. unfold finish, bind, get. rewrite Hfin. reflexivity.
Qed.

Lemma finish_unfinished (chunk : option Chunk) (w : World) :
  _finished (self w) = false ->
  finish chunk w =
    (finish_headers ;; finish_send)
      {| self := buffered chunk (self w); trace := trace w |}.
Proof.
  intros Hfin. unfold finish. unfold bind at 1, get. rewrite Hfin.
  destruct chunk as [c|]; unfold bind at 1; simpl.
  - unfold run_method, write. rewrite Hfin. destruct c; reflexivity.
  - destruct w; reflexivity.
Qed.

Lemma buffered_frame (chunk : option Chunk) (h : Handler) :
  let h' := buffered chunk h in
  request h' = request h /\ application h' = application h /\
  _finished h' = _finished h /\ _headers_written h' = _headers_written h /\
  _status_code h' = _status_code h /\ _transforms h' = _transforms h /\
  _headers h' !! "Etag"%string = _headers h !! "Etag"%string /\
  _headers h' !! "Content-Length"%string = _headers h !! "Content-Length"%string.
Proof.
  destruct chunk as [[b|json]|]; simpl; unfold write;
    destruct (_finished h) eqn:Hfin; simpl; rewrite ?Hfin;
    repeat split; try reflexivity; by rewrite lookup_insert_ne.
Qed.

Lemma set_etag_header_frame (h : Handler) :
  let h' := (set_etag_header h).2 in
  frame h h' /\ _status_code h' = _status_code h /\
  _transforms h' = _transforms h /\
  _headers h' !! "Content-Length"%string = _headers h !! "Content-Length"%string.
Proof.
  unfold set_etag_header. destruct (compute_etag h) as [etag|]; simpl.
  - repeat split. by rewrite lookup_insert_ne.
  - repeat split.
Qed.

Lemma set_etag_header_Ok (h : Handler) :
  set_etag_header h = (Ok tt, (set_etag_header h).2).
Proof.
  unfold set_etag_header. destruct (compute_etag h); reflexivity.
Qed.

Lemma wants_etag_status (h : Handler) : wants_etag h = true -> _status_code h = 200.
Proof.
  unfold wants_etag. intros Hw.
  apply andb_prop in Hw as [Hw _]. apply andb_prop in Hw as [Hw _]. lia.
Qed.

(** The request's conditional header matches: the body is dropped, the
    status becomes 304 and the entity headers are cleared. *)
Lemma finish_headers_match (h : Handler) (t : list Event) :
  _headers_written h = false ->
  wants_etag h = true ->
  check_etag_header (set_etag_header h).2 = true ->
  finish_headers {| self := h; trace := t |} =
    (Ok tt,
     {| self := (_clear_headers_for_304
                   (set_status_code 304
                      (set_write_buffer [] (set_etag_header h).2))).2;
        trace := t |}).
Proof.
  intros Hhw Hwants Hmatch.
  unfold finish_headers, bind, get, when, run_method, modify; simpl.
  rewrite Hhw, Hwants; simpl.
  rewrite set_etag_header_Ok; simpl. rewrite Hmatch; simpl. reflexivity.
Qed.

(** An [Etag] is set and does not match. *)
Lemma finish_headers_no_match (h : Handler) (t : list Event) :
  _headers_written h = false ->
  wants_etag h = true ->
  check_etag_header (set_etag_header h).2 = false ->
  finish_headers {| self := h; trace := t |} =
    (Ok tt,
     {| self := (default_content_length (set_etag_header h).2).2; trace := t |}).
Proof.
  intros Hhw Hwants Hmatch.
  unfold finish_headers, bind, get, when, run_method, modify; simpl.
  rewrite Hhw, Hwants; simpl.
  rewrite set_etag_header_Ok; simpl. rewrite Hmatch; simpl.
  destruct (set_etag_header_frame h) as (_ & Hst & _).
  rewrite Hst, (wants_etag_status h Hwants); simpl.
  unfold default_content_length.
  destruct (negb _); reflexivity.
Qed.

(** No [Etag] handling, and the status is not 304. *)
Lemma finish_headers_other (h : Handler) (t : list Event) :
  _headers_written h = false ->
  wants_etag h = false ->
  _status_code h <> 304 ->
  finish_headers {| self := h; trace := t |} =
    (Ok tt, {| self := (default_content_length h).2; trace := t |}).
Proof.
  intros Hhw Hwants Hst.
  unfold finish_headers, bind, get, when, run_method, modify; simpl.
  rewrite Hhw, Hwants; simpl.
  destruct (Z.eqb_spec (_status_code h) 304) as [Heq|_]; [contradiction |].
  unfold default_content_length.
  destruct (negb _); reflexivity.
Qed.

Lemma default_content_length_frame (h : Handler) :
  let h' := (default_content_length h).2 in
  frame h h' /\ _status_code h' = _status_code h /\
  _transforms h' = _transforms h /\
  _headers h' !! "Etag"%string = _headers h !! "Etag"%string.
Proof.
  unfold default_content_length. destruct (negb _); simpl.
  - repeat split. by rewrite lookup_insert_ne.
  - repeat split.
Qed.

Lemma clear_headers_for_304_absent (h : Handler) (name : string) :
  name ∈ headers_cleared_for_304 ->
  _headers (_clear_headers_for_304 h).2 !! name = None.
Proof.
  unfold _clear_headers_for_304; simpl.
  induction headers_cleared_for_304 as [|n names IH]; intros Hin; simpl.
  - by apply elem_of_nil in Hin.
  - destruct (decide (n = name)) as [->|Hne].
    + apply lookup_delete_eq.
    + rewrite lookup_delete_ne by exact Hne.
      apply IH. apply elem_of_cons in Hin as [Heq|Hin]; [congruence | exact Hin].
Qed.

Lemma clear_headers_for_304_other (h : Handler) (name : string) :
  name ∉ headers_cleared_for_304 ->
  _headers (_clear_headers_for_304 h).2 !! name = _headers h !! name.
Proof.
  unfold _clear_headers_for_304; simpl.
  induction headers_cleared_for_304 as [|n names IH]; intros Hin; simpl.
  - reflexivity.
  - apply not_elem_of_cons in Hin as [Hne Hin].
    rewrite lookup_delete_ne by congruence. apply IH, Hin.
Qed.

(** *** Completing a response *)

(** A [finish] that returns leaves what [on_finish] leaves of a handler
    marked finished. *)
Lemma finish_Ok_self (chunk : option Chunk) (w w' : World) :
  finish chunk w = (Ok tt, w') ->
  exists h, _finished h = true /\ self w' = hook_self on_finish h.
Proof.
  intros Hrun.
  destruct (_finished (self w)) eqn:Hfin.
  - rewrite finish_finished in Hrun by exact Hfin. discriminate Hrun.
  - rewrite finish_unfinished in Hrun by exact Hfin.
    apply bind_Ok_inv in Hrun as (? & w1 & _ & Hrun).
    unfold finish_send in Hrun.
    do 5 (apply bind_Ok_inv in Hrun as (? & ? & _ & Hrun)).
    apply bind_Ok_inv in Hrun as (? & w7 & Hset & Hrun).
    exists (self w7). split.
    + unfold modify in Hset. injection Hset as Hset. subst w7. reflexivity.
    + rewrite <- call_self with (c := c_on_finish). rewrite Hrun. reflexivity.
Qed.

(** C1.  A second [finish()] after one that completed raises the
    "finish() called twice" [RuntimeError] (the spec's DoubleFinishError)
    and leaves the world exactly as it found it: the write buffer and the
    headers are those before the call, and the trace has no new entry, so
    nothing was flushed or written to the transport.  The [on_finish] hook
    of the first call must not reset the private [_finished] flag. *)
Theorem finish_twice_raises (chunk chunk' : option Chunk) (w : World) :
  keeps _finished on_finish ->
  (finish chunk w).1 = Ok tt ->
  let w' := (finish chunk w).2 in
  finish chunk' w' = (Raise (RuntimeError finish_twice_msg), w').
Proof.
  intros Hkeep Hok w'. subst w'.
  destruct (finish chunk w) as [r w'] eqn:Hrun. simpl in *. subst r.
  apply finish_Ok_self in Hrun as (h & Hfin & Hself).
  apply finish_finished. rewrite Hself, Hkeep. exact Hfin.
Qed.

(** The preconditions of the ETag step, read on the handler [finish] is
    called on, hold once the final chunk is buffered. *)
Lemma wants_etag_buffered (chunk : option Chunk) (h : Handler) :
  _status_code h = 200 ->
  method (request h) ∈ ["GET"; "HEAD"]%string ->
  _headers h !! "Etag"%string = None ->
  wants_etag (buffered chunk h) = true.
Proof.
  intros Hst Hm Hetag.
  destruct (buffered_frame chunk h) as (Hreq & _ & _ & _ & Hst' & _ & Hetag' & _).
  unfold wants_etag. rewrite Hst', Hst, Hreq, Hetag', Hetag.
  rewrite (bool_decide_eq_true_2 _ Hm).
  rewrite bool_decide_eq_false_2; [reflexivity |].
  intros [? Hsome]. discriminate Hsome.
Qed.

(** C3.  On a GET or HEAD request with status 200 and no [Etag] header set
    by the handler, [finish()] reaches its flush (the first write of
    headers, [_headers_written] still being false and the trace untouched)
    with the [Etag] header set to the computed validator.  [compute_etag]
    may be overridden to return [None], which switches the header off, and
    the 304 clean-up of the base class is taken not to remove [Etag]. *)
Theorem finish_sets_etag (chunk : option Chunk) (w : World) (etag : string) :
  _finished (self w) = false ->
  _headers_written (self w) = false ->
  _status_code (self w) = 200 ->
  method (request (self w)) ∈ ["GET"; "HEAD"]%string ->
  _headers (self w) !! "Etag"%string = None ->
  compute_etag (buffered chunk (self w)) = Some etag ->
  "Etag"%string ∉ headers_cleared_for_304 ->
  exists h',
    _headers h' !! "Etag"%string = Some etag /\
    _headers_written h' = false /\
    finish chunk w = finish_send {| self := h'; trace := trace w |}.
Proof.
  intros Hfin Hhw Hst Hm Hetag Hcomp Hkept.
  pose proof (wants_etag_buffered chunk (self w) Hst Hm Hetag) as Hwants.
  destruct (buffered_frame chunk (self w)) as (_ & _ & _ & Hhw' & _).
  rewrite Hhw in Hhw'.
  set (h := buffered chunk (self w)) in *.
  assert (Hset : _headers (set_etag_header h).2 !! "Etag"%string = Some etag).
  { unfold set_etag_header. rewrite Hcomp. simpl. apply lookup_insert_eq. }
  destruct (set_etag_header_frame h) as (Hf & _).
  rewrite finish_unfinished by exact Hfin. fold h.
  destruct (check_etag_header (set_etag_header h).2) eqn:Hmatch.
  - pose proof (finish_headers_match h (trace w) Hhw' Hwants Hmatch) as Hhd.
    eexists. split; [| split]; cycle 2.
    + unfold bind. rewrite Hhd. reflexivity.
    + rewrite clear_headers_for_304_other by exact Hkept. exact Hset.
    + simpl. frame_solve.
  - pose proof (finish_headers_no_match h (trace w) Hhw' Hwants Hmatch) as Hhd.
    destruct (default_content_length_frame (set_etag_header h).2)
      as (Hf' & _ & _ & Hsame).
    eexists. split; [| split]; cycle 2.
    + unfold bind. rewrite Hhd. reflexivity.
    + rewrite Hsame. exact Hset.
    + frame_solve.
Qed.

(** C4.  When the request's conditional header matches the [Etag] that
    [finish()] has just set (headers unwritten, status 200, method GET or
    HEAD, no [Etag] before), [finish()] reaches its final flush with status
    304, an empty write buffer and none of the headers that are cleared for
    a 304; and with the empty transform list of [Application.__call__] that
    flush sends the header block generated from exactly this handler and no
    body. *)
Theorem finish_not_modified (chunk : option Chunk) (w : World) :
  _finished (self w) = false ->
  _headers_written (self w) = false ->
  _status_code (self w) = 200 ->
  method (request (self w)) ∈ ["GET"; "HEAD"]%string ->
  _headers (self w) !! "Etag"%string = None ->
  check_etag_header (set_etag_header (buffered chunk (self w))).2 = true ->
  exists h',
    _status_code h' = 304 /\
    _write_buffer h' = [] /\
    (forall name, name ∈ headers_cleared_for_304 -> _headers h' !! name = None) /\
    _headers_written h' = false /\
    finish chunk w = finish_send {| self := h'; trace := trace w |} /\
    (_transforms (self w) = Some [] ->
     forall (t : list Event) (block : bytes),
       _generate_headers (set_headers_written true h') = Ok block ->
       block <> ""%string ->
       flush true None {| self := h'; trace := t |} =
         (Ok tt, {| self := set_headers_written true h';
                    trace := t ++ [Sent (request_write block None)] |})).
Proof.
  intros Hfin Hhw Hst Hm Hetag Hmatch.
  pose proof (wants_etag_buffered chunk (self w) Hst Hm Hetag) as Hwants.
  destruct (buffered_frame chunk (self w))
    as (_ & _ & _ & Hhw' & _ & Hts & _).
  rewrite Hhw in Hhw'.
  set (h := buffered chunk (self w)) in *.
  destruct (set_etag_header_frame h) as (Hf & _ & Hts' & _).
  pose proof (finish_headers_match h (trace w) Hhw' Hwants Hmatch) as Hhd.
  rewrite finish_unfinished by exact Hfin. fold h.
  eexists. repeat apply conj; cycle 4.
  - unfold bind. rewrite Hhd. reflexivity.
  - intros Hempty t block Hgen Hne.
    rewrite (flush_first_plain true None _ block); simpl.
    + rewrite append_empty_r. destruct (String.eqb _ "HEAD"); reflexivity.
    + congruence.
    + frame_solve.
    + exact Hgen.
    + intros _. exact Hne.
  - reflexivity.
  - reflexivity.
  - intros name Hin. apply clear_headers_for_304_absent, Hin.
  - simpl. frame_solve.
Qed.

Lemma not_modified_false (h : Handler) :
  not_modified h = false ->
  _status_code h <> 304 /\
  (wants_etag h = true -> check_etag_header (set_etag_header h).2 = false).
Proof.
  unfold not_modified. intros Hnm.
  apply orb_false_elim in Hnm as [Hst Hetag]. split; [lia |].
  intros Hwants. rewrite Hwants in Hetag. exact Hetag.
Qed.

(** Headers unwritten and no 304: [finish] sets [Content-Length] to the
    size of the buffered body, and the first flush sends the header block
    followed by that body. *)
Lemma finish_sets_content_length (chunk : option Chunk) (w : World) :
  _finished (self w) = false ->
  _headers_written (self w) = false ->
  _headers (self w) !! "Content-Length"%string = None ->
  not_modified (buffered chunk (self w)) = false ->
  exists h',
    _headers h' !! "Content-Length"%string
      = Some (pretty (sum_len (_write_buffer (buffered chunk (self w))))) /\
    _write_buffer h' = _write_buffer (buffered chunk (self w)) /\
    _headers_written h' = false /\
    finish chunk w = finish_send {| self := h'; trace := trace w |} /\
    (_transforms (self w) = Some [] ->
     method (request (self w)) <> "HEAD"%string ->
     forall (t : list Event) (block : bytes),
       _generate_headers (set_headers_written true (set_write_buffer [] h'))
         = Ok block ->
       flush true None {| self := h'; trace := t |} =
         (Ok tt,
          {| self := set_headers_written true (set_write_buffer [] h');
             trace := t ++
               [Sent (request_write
                        (block +:+ join (_write_buffer (buffered chunk (self w))))
                        None)] |})).
Proof.
  intros Hfin Hhw Hcl Hnm.
  destruct (buffered_frame chunk (self w))
    as (Hreq & _ & _ & Hhw' & _ & Hts & _ & Hcl').
  rewrite Hhw in Hhw'. rewrite Hcl in Hcl'.
  set (h := buffered chunk (self w)) in *.
  apply not_modified_false in Hnm as [Hst Hnomatch].
  rewrite finish_unfinished by exact Hfin. fold h.
  assert (Hlen : forall h0 : Handler,
             _headers h0 !! "Content-Length"%string = None ->
             _headers (default_content_length h0).2 !! "Content-Length"%string
               = Some (pretty (sum_len (_write_buffer h0)))).
  { intros h0 Hnone. unfold default_content_length. rewrite Hnone.
    rewrite bool_decide_eq_false_2; simpl.
    - apply lookup_insert_eq.
    - intros [? Hsome]. discriminate Hsome. }
  assert (Hsend : forall h1 : Handler,
             frame h h1 -> _transforms h1 = _transforms h ->
             _transforms (self w) = Some [] ->
             method (request (self w)) <> "HEAD"%string ->
             forall (t : list Event) (block : bytes),
               _generate_headers (set_headers_written true (set_write_buffer [] h1))
                 = Ok block ->
               flush true None {| self := h1; trace := t |} =
                 (Ok tt,
                  {| self := set_headers_written true (set_write_buffer [] h1);
                     trace := t ++
                       [Sent (request_write (block +:+ join (_write_buffer h)) None)] |})).
  { intros h1 Hf1 Hts1 Hempty Hmeth t block Hgen.
    rewrite (flush_first_plain true None _ block); simpl.
    - assert (Hreq1 : request h1 = request (self w)) by frame_solve.
      assert (Hbuf1 : _write_buffer h1 = _write_buffer h) by frame_solve.
      rewrite Hreq1, Hbuf1.
      destruct (String.eqb_spec (method (request (self w))) "HEAD");
        [contradiction | reflexivity].
    - congruence.
    - frame_solve.
    - exact Hgen.
    - intros Hhead. exfalso. apply Hmeth. rewrite <- Hhead. f_equal.
      frame_solve. }
  destruct (wants_etag h) eqn:Hwants.
  - specialize (Hnomatch eq_refl).
    pose proof (finish_headers_no_match h (trace w) Hhw' Hwants Hnomatch) as Hhd.
    destruct (set_etag_header_frame h) as (Hf & _ & Hts' & Hcl'').
    destruct (default_content_length_frame (set_etag_header h).2)
      as (Hf' & _ & Hts'' & _).
    eexists. repeat apply conj; cycle 3.
    + unfold bind. rewrite Hhd. reflexivity.
    + apply Hsend; [frame_solve | congruence].
    + rewrite Hlen by congruence. do 3 f_equal. frame_solve.
    + frame_solve.
    + frame_solve.
  - pose proof (finish_headers_other h (trace w) Hhw' Hwants Hst) as Hhd.
    destruct (default_content_length_frame h) as (Hf' & _ & Hts'' & _).
    eexists. repeat apply conj; cycle 3.
    + unfold bind. rewrite Hhd. reflexivity.
    + apply Hsend; [frame_solve | congruence].
    + apply Hlen. exact Hcl'.
    + frame_solve.
    + frame_solve.
Qed.


(** A response that is a 304 already: the buffer must be empty. *)
Lemma finish_headers_304 (h : Handler) (t : list Event) :
  _headers_written h = false ->
  _status_code h = 304 ->
  finish_headers {| self := h; trace := t |} =
    match _write_buffer h with
    | [] => (Ok tt, {| self := (_clear_headers_for_304 h).2; trace := t |})
    | _ :: _ => (Raise (AssertionError "Cannot send body with 304"),
                 {| self := h; trace := t |})
    end.
Proof.
  intros Hhw Hst.
  assert (Hwants : wants_etag h = false).
  { unfold wants_etag. rewrite Hst. reflexivity. }
  unfold finish_headers, bind, get, when, run_method, modify; simpl.
  rewrite Hhw, Hwants; simpl. rewrite Hst; simpl.
  destruct (_write_buffer h); reflexivity.
Qed.

Lemma finish_headers_written (h : Handler) (t : list Event) :
  _headers_written h = true ->
  finish_headers {| self := h; trace := t |} = (Ok tt, {| self := h; trace := t |}).
Proof.
  intros Hhw. unfold finish_headers, bind, get, when. simpl. rewrite Hhw.
  reflexivity.
Qed.


(** *** Dispatch *)

Lemma call_eq {A} (c : Callee) (f : Hook A) (w : World) :
  call c f w =
    ((f (self w)).1.1,
     {| self := (f (self w)).1.2;
        trace := trace w ++ Called c :: (Sent <$> (f (self w)).2) |}).
Proof. unfold call. destruct (f (self w)) as [[r h] ws]. reflexivity. Qed.

Lemma Called_not_Sent (c : Callee) (ws : list Wire) : Called c ∉ Sent <$> ws.
Proof. intros Hin. apply list_elem_of_fmap in Hin as (x & Hx & _). discriminate Hx. Qed.

(** The error boundary: an [Exception] raised by the body is handed to
    [_handle_request_exception], whose outcome is the outcome of
    [_execute]. *)
Lemma execute_catches (transforms : list Transform) (w w1 : World) (e : Exn) :
  _execute_try {| self := set_transforms (Some transforms) (self w);
                  trace := trace w |} = (Raise e, w1) ->
  is_Exception e = true ->
  _execute transforms w =
    call (c_handle_request_exception e) (_handle_request_exception e) w1.
Proof.
  intros Hbody Hexc.
  unfold _execute, bind, modify, try_except_Exception.
  rewrite Hbody, Hexc. reflexivity.
Qed.

(** C6.  A request whose method is not among [SUPPORTED_METHODS] makes
    [_execute] raise [HTTPError(405)] first thing inside its [try]: the
    exception goes to [_handle_request_exception], and the only call
    [_execute] makes is that one; [prepare()], the XSRF check and the
    routing collaborator are not called. *)
Theorem execute_unsupported_method (transforms : list Transform) (w : World) :
  method (request (self w)) ∉ SUPPORTED_METHODS ->
  exists (r : Res unit) (h' : Handler) (ws : list Wire),
    _handle_request_exception (HTTPError 405)
      (set_transforms (Some transforms) (self w)) = (r, h', ws) /\
    _execute transforms w =
      (r, {| self := h';
             trace := trace w ++
                      Called (c_handle_request_exception (HTTPError 405))
                      :: (Sent <$> ws) |}) /\
    forall c, Called c ∈ Called (c_handle_request_exception (HTTPError 405))
                         :: (Sent <$> ws) ->
              c <> c_prepare /\ c <> c_check_xsrf_cookie /\
              c <> c_when_complete /\ c <> c_handle_request.
Proof.
  intros Hm.
  destruct (_handle_request_exception (HTTPError 405)
              (set_transforms (Some transforms) (self w))) as [[r h'] ws] eqn:Hh.
  exists r, h', ws. split; [reflexivity |]. split.
  - rewrite (execute_catches transforms w
               {| self := set_transforms (Some transforms) (self w);
                  trace := trace w |} (HTTPError 405)).
    + rewrite call_eq. simpl. rewrite Hh. reflexivity.
    + unfold _execute_try, bind, get, when, raise; simpl.
      rewrite bool_decide_eq_false_2 by exact Hm. reflexivity.
    + reflexivity.
  - intros c Hin. apply elem_of_cons in Hin as [Heq|Hin].
    + injection Heq as ->. repeat split; discriminate.
    + destruct (Called_not_Sent _ _ Hin).
Qed.


(** C8.  Every exception that is an instance of [Exception] and is raised
    by the sequence inside [_execute] (the method check, the XSRF check,
    [prepare()], or starting the dispatch through [_when_complete]) is
    caught and handed to [_handle_request_exception], on the handler as
    the sequence left it.  The outcome of [_execute] is then the outcome of
    that handler: [_execute] returns when the handler returns, and an
    exception leaves [_execute] only if the handler itself raises it.
    An exception outside [Exception] ([KeyboardInterrupt], [SystemExit],
    [GeneratorExit]) is not caught: it leaves [_execute], and the handler
    is not called. *)
Theorem execute_error_boundary (transforms : list Transform) (w w1 : World)
    (e : Exn) :
  _execute_try {| self := set_transforms (Some transforms) (self w);
                  trace := trace w |} = (Raise e, w1) ->
  (is_Exception e = true ->
   exists (r : Res unit) (h' : Handler) (ws : list Wire),
     _handle_request_exception e (self w1) = (r, h', ws) /\
     _execute transforms w =
       (r, {| self := h';
              trace := trace w1 ++ Called (c_handle_request_exception e)
                       :: (Sent <$> ws) |}) /\
     (r = Ok tt -> (_execute transforms w).1 = Ok tt) /\
     (forall e', (_execute transforms w).1 = Raise e' -> r = Raise e')) /\
  (is_Exception e = false -> _execute transforms w = (Raise e, w1)).
Proof.
  intros Hbody. split; intros Hexc.
  - destruct (_handle_request_exception e (self w1)) as [[r h'] ws] eqn:Hh.
    exists r, h', ws. split; [reflexivity |].
    rewrite (execute_catches transforms w w1 e Hbody Hexc).
    rewrite call_eq. rewrite Hh. simpl.
    split; [reflexivity |]. split; [intros ->; reflexivity |].
    intros e' Hout. exact Hout.
  - unfold _execute, bind, modify, try_except_Exception.
    rewrite Hbody, Hexc. reflexivity.
Qed.

(** [Application.__call__] dispatches with the empty transform list: the
    whole dispatch, user code included, runs on a handler whose
    [_transforms] is [[]]. *)
Lemma call_dispatches_without_transforms (a : Application) (r : HTTPRequest)
    (w : World) :
  __init__ a r = (Ok tt, w) ->
  __call__ a r =
    try_except_Exception _execute_try
      (fun e => call (c_handle_request_exception e) (_handle_request_exception e))
      {| self := set_transforms (Some []) (self w); trace := trace w |}.
Proof.
  intros Hinit. unfold __call__. rewrite Hinit. reflexivity.
Qed.

(** X20.  The [except Exception] clause lets the interpreter's exit
    signals through: a [KeyboardInterrupt], [SystemExit] or [GeneratorExit]
    raised inside the [try] leaves [_execute] as it is, and
    [_handle_request_exception] is not called. *)
Lemma execute_lets_exit_through (transforms : list Transform) (w w1 : World)
    (name : string) :
  _execute_try {| self := set_transforms (Some transforms) (self w);
                  trace := trace w |} = (Raise (SystemExiting name), w1) ->
  _execute transforms w = (Raise (SystemExiting name), w1).
Proof.
  intros Hbody. unfold _execute, bind, modify, try_except_Exception.
  rewrite Hbody. reflexivity.
Qed.


Lemma finish_headers_flags (w : World) :
  let w' := (finish_headers w).2 in
  _finished (self w') = _finished (self w) /\
  _headers_written (self w') = _headers_written (self w) /\
  trace w' = trace w.
Proof.
  unfold finish_headers, bind, get, when, run_method, modify, ret, raise,
    set_status, _clear_headers_for_304, default_content_length, set_header; simpl.
  destruct (_headers_written (self w)) eqn:Hhw; simpl; [tauto |].
  destruct (wants_etag (self w)); simpl.
  - rewrite set_etag_header_Ok; simpl.
    destruct (set_etag_header_frame (self w)) as (Hf & _).
    destruct (check_etag_header _); simpl.
    + frame_solve.
    + destruct (_ =? 304); simpl.
      * destruct (_write_buffer _); simpl; frame_solve.
      * destruct (negb _); simpl; frame_solve.
  - destruct (_ =? 304); simpl.
    + destruct (_write_buffer _); simpl; frame_solve.
    + destruct (negb _); simpl; frame_solve.
Qed.

Lemma finish_send_flags (w : World) :
  keeps_lifecycle _log -> keeps_lifecycle on_finish ->
  let w' := (finish_send w).2 in
  _headers_written (self w') = true /\
  _write_buffer (self w') = [] /\
  (_finished (self w) = true -> _finished (self w') = true).
Proof.
  intros (Hlf & Hlh & Hlb) (Hof & Hoh & Hob). simpl.
  destruct (finish_send w) as [r w'] eqn:Hrun. simpl.
  unfold finish_send in Hrun. unfold bind at 1, get in Hrun.
  assert (exists w0, when (has_connection (request (self w)))
                       (emit (Sent set_close_callback_None)) w = (Ok tt, w0)
                     /\ self w0 = self w) as (w0 & Hw0 & Hs0).
  { unfold when, emit, ret. destruct (has_connection _); eexists; split; reflexivity. }
  rewrite (bind_Ok_eq _ _ _ _ _ Hw0) in Hrun.
  destruct (flush true None w0) as [[[]|e] w1] eqn:Hflush.
  - rewrite (bind_Ok_eq _ _ _ _ _ Hflush) in Hrun.
    apply flush_spec in Hflush as [Hf _]. rewrite Hs0 in Hf.
    unfold bind at 1, emit in Hrun.
    unfold bind at 1 in Hrun. rewrite call_eq in Hrun. simpl in Hrun.
    pose proof (Hlf (self w1)) as Hlf1. pose proof (Hlh (self w1)) as Hlh1.
    pose proof (Hlb (self w1)) as Hlb1. unfold hook_self in Hlf1, Hlh1, Hlb1.
    destruct ((_log (self w1)).1.1).
    + unfold bind, modify in Hrun. rewrite call_eq in Hrun. simpl in Hrun.
      injection Hrun as <- <-. simpl.
      match goal with
      | |- context [on_finish ?h] =>
          pose proof (Hof h) as Hof1; pose proof (Hoh h) as Hoh1;
          pose proof (Hob h) as Hob1
      end.
      unfold hook_self in Hof1, Hoh1, Hob1.
      rewrite Hof1, Hoh1, Hob1. simpl. rewrite Hlh1, Hlb1. frame_solve.
    + injection Hrun as <- <-. simpl. rewrite Hlf1, Hlh1, Hlb1. frame_solve.
  - rewrite (bind_Raise_eq _ _ _ _ _ Hflush) in Hrun. injection Hrun as <- <-.
    apply flush_spec in Hflush as [Hf _]. rewrite Hs0 in Hf. frame_solve.
Qed.

(** *** The lifecycle across operations *)

(** One operation never takes a flag back, keeps the buffer of a finished
    response empty, and a flush leaves the headers written. *)
Lemma run_op_step (op : Op) (w : World) :
  keeps_lifecycle _log -> keeps_lifecycle on_finish ->
  let w' := (run_op op w).2 in
  (_headers_written (self w) = true -> _headers_written (self w') = true) /\
  (_finished (self w) = true -> _finished (self w') = true) /\
  ((_finished (self w) = true -> _write_buffer (self w) = []) ->
   _finished (self w') = true -> _write_buffer (self w') = []) /\
  (forall fin cb, op = op_flush fin cb -> _headers_written (self w') = true).
Proof.
  intros Hlog Hon. destruct op as [c|fin cb|chunk]; simpl.
  - unfold run_method, write.
    destruct (_finished (self w)) eqn:Hfin; simpl.
    + repeat split; try tauto. discriminate.
    + destruct c; simpl; repeat split; try congruence; discriminate.
  - destruct (flush fin cb w) as [r w'] eqn:Hrun. simpl.
    apply flush_spec in Hrun as [Hf _].
    repeat split; intros; frame_solve.
  - destruct (_finished (self w)) eqn:Hfin.
    + rewrite finish_finished by exact Hfin. simpl.
      repeat split; try tauto. discriminate.
    + rewrite finish_unfinished by exact Hfin.
      destruct (buffered_frame chunk (self w)) as (_ & _ & Hbf & Hbh & _).
      set (w0 := {| self := buffered chunk (self w); trace := trace w |}).
      pose proof (finish_headers_flags w0) as (Hf1 & Hh1 & _).
      unfold bind.
      destruct (finish_headers w0) as [[[]|e] w1]; simpl in *.
      * destruct (finish_send_flags w1 Hlog Hon) as (Hh2 & Hb2 & _).
        repeat split; try tauto; discriminate.
      * repeat split; try congruence; discriminate.
Qed.

Lemma run_ops_snoc (ops : list Op) (op : Op) (w : World) :
  run_ops (ops ++ [op]) w = (run_op op (run_ops ops w)).2.
Proof. unfold run_ops. rewrite foldl_app. reflexivity. Qed.

Lemma run_ops_app (ops more : list Op) (w : World) :
  run_ops (ops ++ more) w = run_ops more (run_ops ops w).
Proof. unfold run_ops. apply foldl_app. Qed.

(** The last world of the history is the world after all operations. *)
Lemma history_last (ops : list Op) (w : World) :
  default w (last (history ops w)) = run_ops ops w.
Proof.
  revert w. induction ops as [|op ops IH]; intros w; [reflexivity |].
  change (run_ops (op :: ops) w) with (run_ops ops (run_op op w).2).
  rewrite <- IH. simpl.
  destruct (history ops (run_op op w).2) as [|w0 l]; [reflexivity |].
  simpl. destruct (last (w0 :: l)) eqn:Hlast; [reflexivity |].
  rewrite last_cons in Hlast. destruct (last l); discriminate Hlast.
Qed.

Lemma run_ops_inv (ops : list Op) (w : World) :
  keeps_lifecycle _log -> keeps_lifecycle on_finish ->
  (_finished (self w) = true -> _write_buffer (self w) = []) ->
  _finished (self (run_ops ops w)) = true ->
  _write_buffer (self (run_ops ops w)) = [].
Proof.
  intros Hlog Hon. revert w.
  induction ops as [|op ops IH]; intros w Hinv; simpl.
  - exact Hinv.
  - apply IH. destruct (run_op_step op w Hlog Hon) as (_ & _ & Hstep & _).
    apply Hstep, Hinv.
Qed.

Lemma run_ops_finished (ops : list Op) (w : World) :
  keeps_lifecycle _log -> keeps_lifecycle on_finish ->
  _finished (self w) = true -> _finished (self (run_ops ops w)) = true.
Proof.
  intros Hlog Hon. revert w.
  induction ops as [|op ops IH]; intros w Hfin; simpl.
  - exact Hfin.
  - apply IH. destruct (run_op_step op w Hlog Hon) as (_ & Hstep & _).
    apply Hstep, Hfin.
Qed.

Lemma flips_once_cons (b : bool) (flags : list bool) :
  (b = true -> forall b', head flags = Some b' -> b' = true) ->
  flips_once flags -> flips_once (b :: flags).
Proof.
  intros Hmono (n & m & ->). destruct b.
  - destruct n as [|n].
    + exists 0%nat, (S m). reflexivity.
    + specialize (Hmono eq_refl false eq_refl). discriminate Hmono.
  - exists (S n), m. reflexivity.
Qed.

Lemma history_flips (flag : Handler -> bool) (ops : list Op) (w : World) :
  (forall op w0, flag (self w0) = true -> flag (self (run_op op w0).2) = true) ->
  flips_once ((flag ∘ self) <$> (w :: history ops w)).
Proof.
  intros Hmono. revert w.
  induction ops as [|op ops IH]; intros w.
  - simpl. apply flips_once_cons; [intros _ ? Hhd; discriminate Hhd |].
    exists 0%nat, 0%nat. reflexivity.
  - change (history (op :: ops) w)
      with ((run_op op w).2 :: history ops (run_op op w).2).
    rewrite fmap_cons. apply flips_once_cons; [| apply IH].
    intros Hflag b' Hhd. simpl in Hhd. injection Hhd as <-.
    apply Hmono, Hflag.
Qed.


(** The world at each position of the history. *)
Lemma history_lookup (ops : list Op) (w : World) (i : nat) :
  (i <= length ops)%nat ->
  (w :: history ops w) !! i = Some (run_ops (take i ops) w).
Proof.
  revert w i. induction ops as [|op ops IH]; intros w i Hi.
  - destruct i; [reflexivity | simpl in Hi; lia].
  - destruct i as [|i]; [reflexivity |].
    change ((w :: history (op :: ops) w) !! S i)
      with (((run_op op w).2 :: history ops (run_op op w).2) !! i).
    rewrite IH by (simpl in Hi; lia). reflexivity.
Qed.

(** A flag that starts false and is true at position [S i] of a monotone
    history has flipped there or before: the history is a non-empty run of
    falses followed by a non-empty run of trues. *)
Lemma flips_once_at (flags : list bool) (i : nat) :
  flips_once flags ->
  flags !! 0%nat = Some false -> flags !! S i = Some true ->
  exists n m,
    flags = replicate (S n) false ++ replicate (S m) true /\ (n <= i)%nat.
Proof.
  intros (n0 & m0 & ->) H0 Hi.
  destruct n0 as [|n].
  - destruct m0; simpl in H0; discriminate H0.
  - destruct (decide (S i < S n)%nat) as [Hlt|Hge].
    + rewrite lookup_app_l in Hi by (rewrite length_replicate; exact Hlt).
      apply lookup_replicate in Hi as [Hi _]. discriminate Hi.
    + rewrite lookup_app_r in Hi by (rewrite length_replicate; lia).
      apply lookup_replicate in Hi as [_ Hi].
      destruct m0 as [|m]; [lia |].
      exists n, m. split; [reflexivity | lia].
Qed.

(** Of the three operations only [finish] sets [_finished], and [write]
    never marks the headers written. *)
Lemma run_op_sets (op : Op) (w : World) :
  (_finished (self w) = false -> _finished (self (run_op op w).2) = true ->
   exists chunk, op = op_finish chunk) /\
  (_headers_written (self w) = false ->
   _headers_written (self (run_op op w).2) = true ->
   (exists fin cb, op = op_flush fin cb) \/ exists chunk, op = op_finish chunk).
Proof.
  destruct op as [c|fin cb|chunk]; simpl.
  - unfold run_method, write. destruct (_finished (self w)) eqn:Hfin; simpl.
    + split; intros; congruence.
    + destruct c; simpl; split; intros; congruence.
  - split.
    + intros Hf Ht. destruct (flush fin cb w) as [r w'] eqn:Hrun.
      apply flush_spec in Hrun as [Hfr _]. simpl in Ht. frame_solve.
    + intros _ _. left. exists fin, cb. reflexivity.
  - split; intros _ _; [| right]; exists chunk; reflexivity.
Qed.

(** A [finish] that returns has set [_finished]. *)
Lemma finish_completed (chunk : option Chunk) (w : World) :
  keeps _finished on_finish ->
  (finish chunk w).1 = Ok tt -> _finished (self (finish chunk w).2) = true.
Proof.
  intros Hon Hok. destruct (finish chunk w) as [r w'] eqn:Hrun.
  simpl in *. subst r.
  apply finish_Ok_self in Hrun as (h & Hh & ->). rewrite Hon. exact Hh.
Qed.

(** C9.  Along any sequence of [write], [flush] and [finish] calls on one
    handler, with [_log] and [on_finish] hooks that leave the two flags and
    the buffer alone:
    - [_finished] and [_headers_written] go from false to true at most
      once and never back;
    - a [finish] that returns leaves [_finished] true, and only [finish]
      sets it: so on a handler that starts unfinished, once a [finish] has
      returned, the history of [_finished] is a non-empty run of falses
      followed by a non-empty run of trues, the flip being no later than
      that [finish]: it has happened exactly once;
    - every [flush] leaves [_headers_written] true, and [write] never sets
      it: so once a [flush] was called on a handler that starts with the
      headers unwritten, the history of [_headers_written] is a non-empty
      run of falses followed by a non-empty run of trues, the flip being
      no later than the first [flush];
    - once [_finished] is true the write buffer stays as it is, whatever
      is called afterwards (the handler must not start out finished with a
      pending buffer). *)
Theorem lifecycle_invariants (w : World) (ops : list Op) :
  keeps_lifecycle _log -> keeps_lifecycle on_finish ->
  (_finished (self w) = true -> _write_buffer (self w) = []) ->
  flips_once ((_finished ∘ self) <$> (w :: history ops w)) /\
  flips_once ((_headers_written ∘ self) <$> (w :: history ops w)) /\
  (forall fin cb,
      _headers_written (self (run_ops (ops ++ [op_flush fin cb]) w)) = true) /\
  (forall more,
      _finished (self (run_ops ops w)) = true ->
      _finished (self (run_ops (ops ++ more) w)) = true /\
      _write_buffer (self (run_ops (ops ++ more) w))
        = _write_buffer (self (run_ops ops w))) /\
  (forall chunk,
      (finish chunk (run_ops ops w)).1 = Ok tt ->
      _finished (self (run_ops (ops ++ [op_finish chunk]) w)) = true) /\
  (forall op,
      _finished (self (run_ops ops w)) = false ->
      _finished (self (run_ops (ops ++ [op]) w)) = true ->
      exists chunk, op = op_finish chunk) /\
  (forall op,
      _headers_written (self (run_ops ops w)) = false ->
      _headers_written (self (run_ops (ops ++ [op]) w)) = true ->
      (exists fin cb, op = op_flush fin cb) \/ exists chunk, op = op_finish chunk) /\
  (_finished (self w) = false ->
   forall i chunk,
     ops !! i = Some (op_finish chunk) ->
     (finish chunk (run_ops (take i ops) w)).1 = Ok tt ->
     exists n m,
       (_finished ∘ self) <$> (w :: history ops w)
         = replicate (S n) false ++ replicate (S m) true /\ (n <= i)%nat) /\
  (_headers_written (self w) = false ->
   forall i fin cb,
     ops !! i = Some (op_flush fin cb) ->
     exists n m,
       (_headers_written ∘ self) <$> (w :: history ops w)
         = replicate (S n) false ++ replicate (S m) true /\ (n <= i)%nat).
Proof.
  intros Hlog Hon Hinv.
  assert (Hff : flips_once ((_finished ∘ self) <$> (w :: history ops w))).
  { apply history_flips. intros op w0.
    destruct (run_op_step op w0 Hlog Hon) as (_ & Hstep & _). exact Hstep. }
  assert (Hfh : flips_once ((_headers_written ∘ self) <$> (w :: history ops w))).
  { apply history_flips. intros op w0.
    destruct (run_op_step op w0 Hlog Hon) as (Hstep & _). exact Hstep. }
  split; [exact Hff |]. split; [exact Hfh |]. split; [| split; [| split]].
  - intros fin cb. rewrite run_ops_snoc.
    destruct (run_op_step (op_flush fin cb) (run_ops ops w) Hlog Hon)
      as (_ & _ & _ & Hflush).
    eapply Hflush. reflexivity.
  - intros more Hfin. split.
    + rewrite run_ops_app. apply run_ops_finished; assumption.
    + rewrite run_ops_app.
      rewrite (run_ops_inv ops w Hlog Hon Hinv) by assumption.
      apply run_ops_inv; try assumption.
      * intros _. apply run_ops_inv; assumption.
      * apply run_ops_finished; assumption.
  - intros chunk Hok. rewrite run_ops_snoc.
    apply finish_completed; [apply Hon | exact Hok].
  - split; [| split; [| split]].
    + intros op Hf Ht. rewrite run_ops_snoc in Ht.
      exact (proj1 (run_op_sets op (run_ops ops w)) Hf Ht).
    + intros op Hf Ht. rewrite run_ops_snoc in Ht.
      exact (proj2 (run_op_sets op (run_ops ops w)) Hf Ht).
    + intros Hstart i chunk Hop Hok.
      apply flips_once_at; [exact Hff | simpl; by rewrite Hstart |].
      rewrite list_lookup_fmap, history_lookup
        by (apply lookup_lt_Some in Hop; lia).
      rewrite (take_S_r _ _ _ Hop), run_ops_snoc. simpl.
      f_equal. apply finish_completed; [apply Hon | exact Hok].
    + intros Hstart i fin cb Hop.
      apply flips_once_at; [exact Hfh | simpl; by rewrite Hstart |].
      rewrite list_lookup_fmap, history_lookup
        by (apply lookup_lt_Some in Hop; lia).
      rewrite (take_S_r _ _ _ Hop), run_ops_snoc. simpl.
      f_equal.
      destruct (run_op_step (op_flush fin cb) (run_ops (take i ops) w) Hlog Hon)
        as (_ & _ & _ & Hflush).
      eapply Hflush. reflexivity.
Qed.

(** *** What the dispatch finishes on its own account *)





End Lifecycle.

(** ** The statements at work on the plain handler class *)

Section Witnesses.

Import Plain.

(** GET request, [b"ab"] and [b"cd"] written, then [finish()] twice. *)
Lemma finish_twice_raises_witness :
  let w := ab_cd (req "GET" ∅) in
  keeps _finished (@on_finish handler) /\
  (@finish handler None w).1 = Ok tt /\
  @finish handler (Some (chunk_bytes "ef")) (@finish handler None w).2
    = (Raise (RuntimeError finish_twice_msg), (@finish handler None w).2).
Proof.
  intros w. split; [intros h; reflexivity |]. split; [vm_compute; reflexivity |].
  apply (@finish_twice_raises handler None (Some (chunk_bytes "ef")) w).
  - intros h. reflexivity.
  - vm_compute. reflexivity.
Defined.

(** HEAD request with [b"ab"] and [b"cd"] in the buffer: one write, the
    header block, and an empty buffer afterwards. *)
Lemma flush_HEAD_sends_no_body_witness :
  let w := ab_cd (req "HEAD" ∅) in
  let w' := (@flush handler false (Some 7%nat) w).2 in
  method (request (self w)) = "HEAD"%string /\
  _write_buffer (self w') = [] /\
  (trace w' = trace w \/
   exists block,
     _headers_written (self w) = false /\
     @_generate_headers handler (self w') = Ok block /\
     block <> ""%string /\
     trace w' = trace w ++ [Sent (request_write block (Some 7%nat))]).
Proof.
  intros w w'. split; [reflexivity |].
  apply (@flush_HEAD_sends_no_body handler false (Some 7%nat) w).
  reflexivity.
Defined.

(** GET request, status 200, no [Etag] set: [finish()] sets the validator
    of the two buffered chunks. *)
Lemma finish_sets_etag_witness :
  let w := ab_cd (req "GET" ∅) in
  (_finished (self w) = false /\
   _headers_written (self w) = false /\
   _status_code (self w) = 200 /\
   method (request (self w)) ∈ ["GET"; "HEAD"]%string /\
   _headers (self w) !! "Etag"%string = None /\
   @compute_etag handler (buffered None (self w)) = Some "etag-4-abcd"%string /\
   "Etag"%string ∉ @headers_cleared_for_304 handler) /\
  exists h',
    _headers h' !! "Etag"%string = Some "etag-4-abcd"%string /\
    _headers_written h' = false /\
    @finish handler None w = @finish_send handler {| self := h'; trace := trace w |}.
Proof.
  intros w.
  assert (Hm : method (request (self w)) ∈ ["GET"; "HEAD"]%string) by compute_done.
  assert (Hk : "Etag"%string ∉ @headers_cleared_for_304 handler) by compute_done.
  split.
  - repeat split; try reflexivity; assumption.
  - apply (@finish_sets_etag handler None w "etag-4-abcd");
      try reflexivity; assumption.
Defined.

(** A GET request whose [If-None-Match] header carries the validator of
    the buffered body. *)
Lemma finish_not_modified_witness :
  let w := ab_cd (req "GET" {[ "If-None-Match"%string := "etag-4-abcd"%string ]}) in
  (_finished (self w) = false /\
   _headers_written (self w) = false /\
   _status_code (self w) = 200 /\
   method (request (self w)) ∈ ["GET"; "HEAD"]%string /\
   _headers (self w) !! "Etag"%string = None /\
   @check_etag_header handler
     (@set_etag_header handler (buffered None (self w))).2 = true) /\
  exists h',
    _status_code h' = 304 /\
    _write_buffer h' = [] /\
    (forall name, name ∈ @headers_cleared_for_304 handler ->
                  _headers h' !! name = None) /\
    _headers_written h' = false /\
    @finish handler None w = @finish_send handler {| self := h'; trace := trace w |} /\
    (_transforms (self w) = Some [] ->
     forall (t : list Event) (block : bytes),
       @_generate_headers handler (set_headers_written true h') = Ok block ->
       block <> ""%string ->
       @flush handler true None {| self := h'; trace := t |} =
         (Ok tt, {| self := set_headers_written true h';
                    trace := t ++ [Sent (request_write block None)] |})).
Proof.
  intros w.
  assert (Hm : method (request (self w)) ∈ ["GET"; "HEAD"]%string) by compute_done.
  split.
  - repeat split; try reflexivity; assumption.
  - apply (@finish_not_modified handler None w); try reflexivity; assumption.
Defined.


(** PUT on a handler class that answers GET and HEAD only. *)
Lemma execute_unsupported_method_witness :
  let w := fresh app (req "PUT" ∅) in
  let supported := @SUPPORTED_METHODS read_only in
  (method (request (self w)) ∉ supported) /\
  exists (r : Res unit) (h' : Handler) (ws : list Wire),
    @_handle_request_exception read_only (HTTPError 405)
      (set_transforms (Some []) (self w)) = (r, h', ws) /\
    @_execute read_only [] w =
      (r, {| self := h';
             trace := trace w ++
                      Called (c_handle_request_exception (HTTPError 405))
                      :: (Sent <$> ws) |}) /\
    forall c, Called c ∈ Called (c_handle_request_exception (HTTPError 405))
                         :: (Sent <$> ws) ->
              c <> c_prepare /\ c <> c_check_xsrf_cookie /\
              c <> c_when_complete /\ c <> c_handle_request.
Proof.
  intros w supported.
  assert (Hm : method (request (self w)) ∉ supported) by compute_done.
  split; [exact Hm |].
  apply (@execute_unsupported_method read_only [] w Hm).
Defined.


(** A [prepare()] that raises: the plain exception handler answers with a
    500 and returns, and so does [_execute]. *)
Lemma execute_error_boundary_witness :
  let w := fresh app (req "GET" ∅) in
  let e := OtherException "KeyError" in
  let w1 := {| self := set_transforms (Some []) (self w);
               trace := trace w ++ [Called c_prepare] |} in
  (@_execute_try failing_prepare
     {| self := set_transforms (Some []) (self w); trace := trace w |}
     = (Raise e, w1) /\
   is_Exception e = true /\
   (@_execute failing_prepare [] w).1 = Ok tt /\
   _status_code (self (@_execute failing_prepare [] w).2) = 500) /\
  (is_Exception e = true ->
   exists (r : Res unit) (h' : Handler) (ws : list Wire),
     @_handle_request_exception failing_prepare e (self w1) = (r, h', ws) /\
     @_execute failing_prepare [] w =
       (r, {| self := h';
              trace := trace w1 ++ Called (c_handle_request_exception e)
                       :: (Sent <$> ws) |}) /\
     (r = Ok tt -> (@_execute failing_prepare [] w).1 = Ok tt) /\
     (forall e', (@_execute failing_prepare [] w).1 = Raise e' -> r = Raise e')) /\
  (is_Exception e = false -> @_execute failing_prepare [] w = (Raise e, w1)).
Proof.
  intros w e w1. split.
  - repeat split; reflexivity.
  - apply (@execute_error_boundary failing_prepare [] w w1 e); reflexivity.
Defined.

(** A [KeyboardInterrupt] raised by [prepare()], inside the [try]: it
    leaves [_execute] as it is, and [_handle_request_exception] is never
    called, so [_execute] is not what the handler would have made of it.
    And a 405 on a class whose exception handler raises it again: the
    handler is called, and the 405 leaves [_execute] all the same. *)
Lemma execute_error_boundary_counterexample :
  let w := fresh app (req "GET" ∅) in
  let e := SystemExiting "KeyboardInterrupt" in
  let w1 := {| self := set_transforms (Some []) (self w);
               trace := trace w ++ [Called c_prepare] |} in
  let w2 := fresh app (req "PUT" ∅) in
  @_execute_try Variants.interrupted_prepare
    {| self := set_transforms (Some []) (self w); trace := trace w |}
    = (Raise e, w1) /\
  @_execute Variants.interrupted_prepare [] w = (Raise e, w1) /\
  ~ handled (trace w1) /\
  (~ exists (r : Res unit) (h' : Handler) (ws : list Wire),
       @_handle_request_exception Variants.interrupted_prepare e (self w1)
         = (r, h', ws) /\
       @_execute Variants.interrupted_prepare [] w =
         (r, {| self := h';
                trace := trace w1 ++ Called (c_handle_request_exception e)
                         :: (Sent <$> ws) |})) /\
  @_execute_try Variants.reraising
    {| self := set_transforms (Some []) (self w2); trace := trace w2 |}
    = (Raise (HTTPError 405), w2) /\
  @_execute Variants.reraising [] w2 =
    (Raise (HTTPError 405),
     {| self := self w2;
        trace := [Called (c_handle_request_exception (HTTPError 405))] |}).
Proof.
  intros w e w1 w2.
  assert (Hrun : @_execute Variants.interrupted_prepare [] w = (Raise e, w1))
    by reflexivity.
  split; [reflexivity |]. split; [exact Hrun |]. split; [| split].
  - intros [e' Hin].
    apply elem_of_cons in Hin as [Heq|Hin]; [discriminate Heq |].
    by apply elem_of_nil in Hin.
  - intros (r & h' & ws & _ & Heq). rewrite Hrun in Heq.
    injection Heq as _ _ Ht. discriminate Ht.
  - split; reflexivity.
Qed.

(** Write, flush, finish, and then every operation once more: [_finished]
    flips at the [finish], [_headers_written] at the first [flush]. *)
Lemma lifecycle_invariants_witness :
  let w := fresh app (req "GET" ∅) in
  let ops := [op_write (chunk_bytes "ab"); op_flush false None;
              op_finish (Some (chunk_bytes "cd")); op_flush false None;
              op_write (chunk_bytes "ef"); op_finish None] in
  (keeps_lifecycle (@_log handler) /\ keeps_lifecycle (@on_finish handler) /\
   (_finished (self w) = true -> _write_buffer (self w) = []) /\
   (_finished ∘ self) <$> (w :: @history handler ops w)
     = [false; false; false; true; true; true; true] /\
   (_headers_written ∘ self) <$> (w :: @history handler ops w)
     = [false; false; true; true; true; true; true] /\
   ops !! 2%nat = Some (op_finish (Some (chunk_bytes "cd"))) /\
   (@finish handler (Some (chunk_bytes "cd"))
      (@run_ops handler (take 2 ops) w)).1 = Ok tt /\
   (@finish handler None (@run_ops handler ops w)).1
     = Raise (RuntimeError finish_twice_msg)) /\
  flips_once ((_finished ∘ self) <$> (w :: @history handler ops w)) /\
  flips_once ((_headers_written ∘ self) <$> (w :: @history handler ops w)) /\
  (forall fin cb,
      _headers_written
        (self (@run_ops handler (ops ++ [op_flush fin cb]) w)) = true) /\
  (forall more,
      _finished (self (@run_ops handler ops w)) = true ->
      _finished (self (@run_ops handler (ops ++ more) w)) = true /\
      _write_buffer (self (@run_ops handler (ops ++ more) w))
        = _write_buffer (self (@run_ops handler ops w))) /\
  (forall chunk,
      (@finish handler chunk (@run_ops handler ops w)).1 = Ok tt ->
      _finished (self (@run_ops handler (ops ++ [op_finish chunk]) w)) = true) /\
  (forall op,
      _finished (self (@run_ops handler ops w)) = false ->
      _finished (self (@run_ops handler (ops ++ [op]) w)) = true ->
      exists chunk, op = op_finish chunk) /\
  (forall op,
      _headers_written (self (@run_ops handler ops w)) = false ->
      _headers_written (self (@run_ops handler (ops ++ [op]) w)) = true ->
      (exists fin cb, op = op_flush fin cb) \/ exists chunk, op = op_finish chunk) /\
  (_finished (self w) = false ->
   forall i chunk,
     ops !! i = Some (op_finish chunk) ->
     (@finish handler chunk (@run_ops handler (take i ops) w)).1 = Ok tt ->
     exists n m,
       (_finished ∘ self) <$> (w :: @history handler ops w)
         = replicate (S n) false ++ replicate (S m) true /\ (n <= i)%nat) /\
  (_headers_written (self w) = false ->
   forall i fin cb,
     ops !! i = Some (op_flush fin cb) ->
     exists n m,
       (_headers_written ∘ self) <$> (w :: @history handler ops w)
         = replicate (S n) false ++ replicate (S m) true /\ (n <= i)%nat).
Proof.
  intros w ops.
  assert (Hl : keeps_lifecycle (@_log handler))
    by (repeat split; intros h; reflexivity).
  assert (Ho : keeps_lifecycle (@on_finish handler))
    by (repeat split; intros h; reflexivity).
  assert (Hi : _finished (self w) = true -> _write_buffer (self w) = [])
    by (intros _; reflexivity).
  split.
  - split; [exact Hl |]. split; [exact Ho |]. split; [exact Hi |].
    repeat split; vm_compute; reflexivity.
  - apply (@lifecycle_invariants handler w ops Hl Ho Hi).
Defined.




End Witnesses.

(** ** Beyond the lifecycle claims *)

Lemma append_assoc (a b c : string) : ((a +:+ b) +:+ c)%string = (a +:+ (b +:+ c))%string.
Proof.
  induction a as [|x a IH]; [reflexivity |].
  change (String x ((a +:+ b) +:+ c) = String x (a +:+ (b +:+ c))).
  f_equal. exact IH.
Qed.

Lemma length_append (a b : string) :
  String.length (a +:+ b) = (String.length a + String.length b)%nat.
Proof.
  induction a as [|x a IH]; [reflexivity |].
  change (S (String.length (a +:+ b)) = S (String.length a + String.length b)).
  f_equal. exact IH.
Qed.

Lemma join_app (l1 l2 : list bytes) : join (l1 ++ l2) = (join l1 +:+ join l2)%string.
Proof.
  induction l1 as [|x l1 IH]; [reflexivity |].
  change (x +:+ join (l1 ++ l2) = (x +:+ join l1) +:+ join l2)%string.
  rewrite IH, append_assoc. reflexivity.
Qed.

Lemma length_join (parts : list bytes) :
  Z.of_nat (String.length (join parts)) = sum_len parts.
Proof.
  induction parts as [|x parts IH]; [reflexivity |].
  change (Z.of_nat (String.length (x +:+ join parts))
          = Z.of_nat (String.length x) + sum_len parts).
  rewrite length_append. lia.
Qed.

Lemma wire_bytes_app (t1 t2 : list Event) :
  wire_bytes (t1 ++ t2) = (wire_bytes t1 +:+ wire_bytes t2)%string.
Proof. unfold wire_bytes. rewrite fmap_app. apply join_app. Qed.

Lemma finishes_app (t1 t2 : list Event) :
  finishes (t1 ++ t2) = (finishes t1 + finishes t2)%nat.
Proof.
  induction t1 as [|e t1 IH]; [reflexivity |].
  simpl. rewrite IH. destruct (is_request_finish e); reflexivity.
Qed.

Section Beyond.

Context `{Inherited}.

(** *** [flush] when something goes wrong *)

(** X1.  A [flush] that raises (a transform fails, the header block cannot
    be generated, or the transforms were never set) has sent nothing, yet
    the write buffer is already empty and the headers count as written:
    the buffered chunks are lost to a retry. *)
Theorem flush_failure_loses_buffer (fin : bool) (cb : option Callback)
    (w w' : World) (e : Exn) :
  flush fin cb w = (Raise e, w') ->
  trace w' = trace w /\
  _write_buffer (self w') = [] /\
  _headers_written (self w') = true.
Proof.
  intros Hrun. apply flush_spec in Hrun as [Hf Htrace].
  split; [| frame_solve].
  destruct Htrace as [Hsame | (block & chunk & Hok & _)];
    [exact Hsame | discriminate Hok].
Qed.

(** X2.  Before [_execute] has set [_transforms] (it is [None] after
    [__init__]), every [flush] fails with a [TypeError]; nothing is sent,
    the buffer is cleared and the headers are marked written. *)
Theorem flush_before_execute (fin : bool) (cb : option Callback) (w : World) :
  _transforms (self w) = None ->
  exists msg w',
    flush fin cb w = (Raise (TypeError msg), w') /\
    trace w' = trace w /\
    _write_buffer (self w') = [] /\
    _headers_written (self w') = true /\
    _finished (self w') = _finished (self w) /\
    _headers (self w') = _headers (self w) /\
    _status_code (self w') = _status_code (self w).
Proof.
  intros Hts. unfold flush, for_transforms. unfold bind, get, modify, raise; simpl.
  destruct (_headers_written (self w)) eqn:Hhw; simpl; rewrite Hts; simpl;
    eexists _, _; (split; [reflexivity |]); simpl; rewrite ?Hhw; tauto.
Qed.

(** After the headers, with no transforms, a flush sends the buffered
    bytes and nothing else. *)
Lemma flush_later_plain (fin : bool) (cb : option Callback) (w : World) :
  _transforms (self w) = Some [] ->
  _headers_written (self w) = true ->
  flush fin cb w =
    (Ok tt,
     {| self := set_write_buffer [] (self w);
        trace := trace w ++
                 (if String.eqb (method (request (self w))) "HEAD" then []
                  else [Sent (request_write (join (_write_buffer (self w))) cb)]) |}).
Proof.
  intros Hts Hhw.
  unfold flush, for_transforms. unfold bind, get, modify, ret; simpl.
  rewrite Hhw; simpl. rewrite Hts; simpl.
  destruct (String.eqb (method (request (self w))) "HEAD").
  - unfold when, bytes_nonempty; simpl. rewrite app_nil_r. reflexivity.
  - reflexivity.
Qed.

(** *** Streaming *)

Lemma stream_step (block : bytes) (op : Op) (w : World) :
  streamable block (self w) ->
  streams op = true ->
  let w' := (run_op op w).2 in
  streamable block (self w') /\
  (wire_bytes (trace w') +:+ pending block (self w'))%string
    = (wire_bytes (trace w) +:+ pending block (self w)
       +:+ join (chunks_of [op]))%string /\
  (forall fin cb, op = op_flush fin cb -> pending block (self w') = ""%string).
Proof.
  intros (Hts & Hfin & Hm & Hgen) Hop.
  destruct op as [[b|json]|fin cb|chunk]; try discriminate Hop; simpl.
  - unfold run_method, write. rewrite Hfin. simpl.
    split; [| split].
    + unfold streamable; simpl. tauto.
    + unfold pending; simpl. rewrite join_app.
      change (join [b]) with (b +:+ "")%string. rewrite append_empty_r.
      rewrite !append_assoc. reflexivity.
    + intros fin cb Heq. discriminate Heq.
  - assert (Hhead : String.eqb (method (request (self w))) "HEAD" = false)
      by (apply String.eqb_neq; exact Hm).
    destruct (_headers_written (self w)) eqn:Hhw.
    + rewrite flush_later_plain by assumption. rewrite Hhead. simpl.
      split; [| split].
      * unfold streamable; simpl. repeat split; try assumption. intros Hneq.
        rewrite Hhw in Hneq. discriminate Hneq.
      * unfold pending; simpl. rewrite Hhw. simpl.
        rewrite wire_bytes_app. unfold wire_bytes at 2; simpl.
        change (join [join (_write_buffer (self w))])
          with (join (_write_buffer (self w)) +:+ "")%string.
        rewrite !append_empty_r. reflexivity.
      * intros _ _ _. unfold pending; simpl. rewrite Hhw. reflexivity.
    + rewrite (flush_first_plain fin cb w block Hts Hhw (Hgen eq_refl)
                 (fun Hh => match Hm Hh with end)).
      rewrite Hhead. simpl.
      split; [| split].
      * unfold streamable; simpl. repeat split; try assumption. intros Hneq.
        discriminate Hneq.
      * unfold pending; simpl. rewrite Hhw.
        rewrite wire_bytes_app. unfold wire_bytes at 2; simpl.
        change (join [(block +:+ join (_write_buffer (self w)))%string])
          with ((block +:+ join (_write_buffer (self w))) +:+ "")%string.
        rewrite !append_empty_r. reflexivity.
      * intros _ _ _. unfold pending; simpl. reflexivity.
Qed.

Lemma stream_steps (block : bytes) (ops : list Op) (w : World) :
  streamable block (self w) ->
  forallb streams ops = true ->
  streamable block (self (run_ops ops w)) /\
  (wire_bytes (trace (run_ops ops w)) +:+ pending block (self (run_ops ops w)))%string
    = (wire_bytes (trace w) +:+ pending block (self w)
       +:+ join (chunks_of ops))%string.
Proof.
  revert w. induction ops as [|op ops IH]; intros w Hw Hops.
  - simpl. rewrite append_empty_r. split; [exact Hw | reflexivity].
  - simpl in Hops. apply andb_prop in Hops as [Hop Hops].
    destruct (stream_step block op w Hw Hop) as (Hw' & Hbytes & _).
    destruct (IH (run_op op w).2 Hw' Hops) as (Hw'' & Hrest).
    change (run_ops (op :: ops) w) with (run_ops ops (run_op op w).2).
    split; [exact Hw'' |].
    rewrite Hrest. rewrite <- append_assoc. rewrite Hbytes.
    replace (chunks_of (op :: ops)) with (chunks_of [op] ++ chunks_of ops)
      by (unfold chunks_of; simpl; rewrite app_nil_r; reflexivity).
    rewrite (join_app (chunks_of [op])).
    rewrite !append_assoc. reflexivity.
Qed.

(** X3.  Streaming loses and repeats nothing: on a request that is not
    HEAD, with the empty transform list, after any sequence of byte
    writes and flushes closed by a flush, the bytes handed to the transport
    are the header block (if it was still to be written) followed by what
    was in the buffer and by every chunk written, in order. *)
Theorem streaming_conserves_bytes (block : bytes) (ops : list Op) (w : World)
    (fin : bool) (cb : option Callback) :
  streamable block (self w) ->
  forallb streams ops = true ->
  wire_bytes (trace (run_ops (ops ++ [op_flush fin cb]) w))
    = (wire_bytes (trace w) +:+ pending block (self w)
       +:+ join (chunks_of ops))%string.
Proof.
  intros Hw Hops.
  destruct (stream_steps block ops w Hw Hops) as (Hw' & Hbytes).
  rewrite run_ops_snoc.
  destruct (stream_step block (op_flush fin cb) (run_ops ops w) Hw' eq_refl)
    as (_ & Hlast & Hnone).
  rewrite (Hnone fin cb eq_refl) in Hlast. rewrite append_empty_r in Hlast.
  rewrite Hlast. simpl. rewrite append_empty_r. exact Hbytes.
Qed.

End Beyond.

Section Completion.

Context `{Inherited}.

(** *** The steps of [finish] *)

(** The header logic of [finish] changes status, headers and buffer only. *)
Lemma finish_headers_frame (w : World) :
  let w' := (finish_headers w).2 in
  trace w' = trace w /\
  request (self w') = request (self w) /\
  application (self w') = application (self w) /\
  _transforms (self w') = _transforms (self w) /\
  _finished (self w') = _finished (self w) /\
  _headers_written (self w') = _headers_written (self w).
Proof.
  unfold finish_headers, bind, get, when, run_method, modify, ret, raise,
    set_status, _clear_headers_for_304, default_content_length, set_header; simpl.
  destruct (_headers_written (self w)) eqn:Hhw; simpl; [tauto |].
  destruct (wants_etag (self w)); simpl.
  - rewrite set_etag_header_Ok; simpl.
    destruct (set_etag_header_frame (self w)) as (Hf & _ & Hts & _).
    destruct (check_etag_header _); simpl.
    + frame_solve.
    + destruct (_ =? 304); simpl.
      * destruct (_write_buffer _); simpl; frame_solve.
      * destruct (negb _); simpl; frame_solve.
  - destruct (_ =? 304); simpl.
    + destruct (_write_buffer _); simpl; frame_solve.
    + destruct (negb _); simpl; frame_solve.
Qed.

Lemma finish_send_cases (w w' : World) (r : Res unit) :
  finish_send w = (r, w') ->
  exists (writes : list Wire) (h1 : Handler),
    (writes = [] \/ exists data, writes = [request_write data None]) /\
    frame (set_headers_written true (set_write_buffer [] (self w))) h1 /\
    ((exists e, r = Raise e /\ writes = [] /\ self w' = h1 /\
                trace w' = trace w ++ flushed (self w) writes)
     \/
     (exists e, r = Raise e /\ (_log h1).1.1 = Raise e /\
                self w' = hook_self _log h1 /\
                trace w' = trace w ++ flushed (self w) writes
                           ++ logged (_log h1).2)
     \/
     (exists h2, (_log h1).1.1 = Ok tt /\
                 h2 = set_finished true (hook_self _log h1) /\
                 r = (on_finish h2).1.1 /\
                 self w' = hook_self on_finish h2 /\
                 trace w' = trace w ++ flushed (self w) writes
                            ++ logged (_log h1).2
                            ++ Called c_on_finish :: (Sent <$> (on_finish h2).2))).
Proof.
  intros Hrun. unfold finish_send in Hrun. unfold bind at 1, get in Hrun.
  assert (exists w0, when (has_connection (request (self w)))
                       (emit (Sent set_close_callback_None)) w = (Ok tt, w0)
                     /\ self w0 = self w
                     /\ trace w0 = trace w ++ flushed (self w) [])
    as (w0 & Hw0 & Hs0 & Ht0).
  { unfold when, emit, ret, flushed. destruct (has_connection _);
      eexists; repeat split; simpl; by rewrite ?app_nil_r. }
  rewrite (bind_Ok_eq _ _ _ _ _ Hw0) in Hrun.
  assert (Hflushed : forall ws, trace w ++ flushed (self w) ws
                                = trace w0 ++ (Sent <$> ws)).
  { intros ws. rewrite Ht0. unfold flushed. simpl. rewrite app_nil_r.
    rewrite app_assoc. reflexivity. }
  destruct (flush true None w0) as [[[]|e] w1] eqn:Hflush.
  - rewrite (bind_Ok_eq _ _ _ _ _ Hflush) in Hrun.
    apply flush_spec in Hflush as [Hf Htrace]. rewrite Hs0 in Hf.
    assert (exists writes,
               (writes = [] \/ exists data, writes = [request_write data None])
               /\ trace w1 = trace w0 ++ (Sent <$> writes))
      as (writes & Hwrites & Ht1).
    { destruct Htrace as [Hsame | (block & chunk & _ & _ & _ & Ht)].
      - exists []. split; [left; reflexivity | simpl; by rewrite app_nil_r].
      - eexists [_]. split; [right; eexists; reflexivity | exact Ht]. }
    exists writes, (self w1). split; [exact Hwrites |]. split; [exact Hf |].
    unfold bind at 1, emit in Hrun.
    unfold bind at 1 in Hrun. rewrite call_eq in Hrun. simpl in Hrun.
    destruct ((_log (self w1)).1.1) as [[]|e] eqn:Hlog.
    + right. right. eexists. split; [reflexivity |]. split; [reflexivity |].
      unfold bind, modify in Hrun. rewrite call_eq in Hrun. simpl in Hrun.
      injection Hrun as <- <-. simpl.
      split; [reflexivity |]. split; [reflexivity |].
      rewrite (app_assoc (trace w)), Hflushed, Ht1. unfold logged, hook_self.
      simpl. rewrite <- !app_assoc. simpl. reflexivity.
    + right. left. exists e. injection Hrun as <- <-. simpl.
      repeat split. rewrite (app_assoc (trace w)), Hflushed, Ht1.
      unfold logged. simpl. rewrite <- !app_assoc. reflexivity.
  - rewrite (bind_Raise_eq _ _ _ _ _ Hflush) in Hrun. injection Hrun as <- <-.
    apply flush_spec in Hflush as [Hf Htrace]. rewrite Hs0 in Hf.
    assert (Ht1 : trace w1 = trace w0).
    { destruct Htrace as [Hsame | (block & chunk & Hok & _)];
        [exact Hsame | discriminate Hok]. }
    exists [], (self w1). split; [left; reflexivity |]. split; [exact Hf |].
    left. exists e. repeat split. rewrite Hflushed, Ht1. simpl.
    by rewrite app_nil_r.
Qed.

(** An unfinished handler: [finish] either stops in its header logic,
    having sent nothing, or goes on to send from the handler that logic
    left. *)
Lemma finish_cases (chunk : option Chunk) (w : World) :
  _finished (self w) = false ->
  (exists e w1,
      finish chunk w = (Raise e, w1) /\ trace w1 = trace w /\
      _finished (self w1) = false)
  \/
  (exists w1,
      finish chunk w = finish_send w1 /\ trace w1 = trace w /\
      request (self w1) = request (self w) /\
      _transforms (self w1) = _transforms (self w) /\
      _finished (self w1) = false /\
      _headers_written (self w1) = _headers_written (self w)).
Proof.
  intros Hfin. rewrite finish_unfinished by exact Hfin.
  destruct (buffered_frame chunk (self w))
    as (Hreq & _ & Hbf & Hbh & _ & Hts & _).
  set (w0 := {| self := buffered chunk (self w); trace := trace w |}).
  pose proof (finish_headers_frame w0) as (Ht & Hr & _ & Htr & Hf & Hh).
  unfold bind. destruct (finish_headers w0) as [[[]|e] w1]; simpl in *.
  - right. exists w1. repeat split; congruence.
  - left. exists e, w1. repeat split; congruence.
Qed.

Lemma flushed_request (h h' : Handler) (writes : list Wire) :
  request h' = request h -> flushed h' writes = flushed h writes.
Proof. intros Hreq. unfold flushed. rewrite Hreq. reflexivity. Qed.

(** X4.  A [finish()] that completes has used the transport in this order:
    the close callback is detached (when the request has a connection),
    the flush writes at most once, [request.finish()] is called, and only
    then the access log and the [on_finish] hook run. *)
Theorem finish_wire_order (chunk : option Chunk) (w : World) :
  (finish chunk w).1 = Ok tt ->
  exists (writes log_sent on_finish_sent : list Wire),
    (writes = [] \/ exists data, writes = [request_write data None]) /\
    trace (finish chunk w).2 =
      trace w ++ flushed (self w) writes ++ logged log_sent
      ++ Called c_on_finish :: (Sent <$> on_finish_sent).
Proof.
  intros Hok.
  destruct (_finished (self w)) eqn:Hfin.
  { rewrite finish_finished in Hok by exact Hfin. discriminate Hok. }
  destruct (finish_cases chunk w Hfin) as [(e & w1 & Heq & _) | (w1 & Heq & Ht & Hreq & _)].
  { rewrite Heq in Hok. discriminate Hok. }
  rewrite Heq in Hok |- *.
  destruct (finish_send w1) as [r w'] eqn:Hsend. simpl in Hok. subst r.
  apply finish_send_cases in Hsend
    as (writes & h1 & Hwrites & _ & [(e & He & _) | [(e & He & _) | (h2 & _ & _ & _ & _ & Htrace)]]);
    try discriminate He.
  exists writes, (_log h1).2, (on_finish h2).2. split; [exact Hwrites |].
  simpl. rewrite Htrace, Ht, (flushed_request (self w) (self w1)) by exact Hreq.
  reflexivity.
Qed.

Lemma Called_not_flushed (c : Callee) (h : Handler) (writes : list Wire) :
  Called c ∉ flushed h writes.
Proof.
  unfold flushed. intros Hin. apply elem_of_app in Hin as [Hin|Hin].
  - destruct (has_connection (request h)).
    + apply list_elem_of_singleton in Hin. discriminate Hin.
    + by apply elem_of_nil in Hin.
  - exact (Called_not_Sent _ _ Hin).
Qed.

(** X5.  [_finished] is the last thing [finish()] sets before [on_finish]:
    after a call on an unfinished handler, the flag is true exactly when
    the [on_finish] hook has been reached.  A failure before that (the 304
    assertion, the flush, the access log) leaves the handler unfinished,
    even if the response has gone out already. *)
Theorem finish_marks_finished_last (chunk : option Chunk) (w : World) :
  keeps _finished _log -> keeps _finished on_finish ->
  _finished (self w) = false ->
  exists ev : list Event,
    trace (finish chunk w).2 = trace w ++ ev /\
    (_finished (self (finish chunk w).2) = true <-> Called c_on_finish ∈ ev).
Proof.
  intros Hlog Hon Hfin.
  destruct (finish_cases chunk w Hfin)
    as [(e & w1 & Heq & Ht & Hf) | (w1 & Heq & Ht & Hreq & _ & Hf & _)];
    rewrite Heq.
  { exists []. simpl. rewrite app_nil_r. split; [exact Ht |].
    rewrite Hf. split; [discriminate | intros Hin; by apply elem_of_nil in Hin]. }
  destruct (finish_send w1) as [r w'] eqn:Hsend. simpl.
  apply finish_send_cases in Hsend
    as (writes & h1 & _ & Hframe
        & [(e & _ & _ & Hself & Htrace)
          | [(e & _ & _ & Hself & Htrace) | (h2 & _ & Hh2 & _ & Hself & Htrace)]]);
    rewrite Htrace, Ht; eexists; (split; [reflexivity |]).
  - rewrite Hself. assert (Hf1 : _finished h1 = false) by frame_solve.
    rewrite Hf1. split; [discriminate |].
    intros Hin. destruct (Called_not_flushed _ _ _ Hin).
  - rewrite Hself, Hlog. assert (Hf1 : _finished h1 = false) by frame_solve.
    rewrite Hf1. split; [discriminate |].
    intros Hin. apply elem_of_app in Hin as [Hin|Hin].
    + destruct (Called_not_flushed _ _ _ Hin).
    + unfold logged in Hin. simpl in Hin.
      apply elem_of_cons in Hin as [Heq'|Hin]; [discriminate Heq' |].
      apply elem_of_cons in Hin as [Heq'|Hin]; [discriminate Heq' |].
      destruct (Called_not_Sent _ _ Hin).
  - rewrite Hself, Hon, Hh2. simpl. split; [intros _ | reflexivity].
    apply elem_of_app. right. do 2 apply list_elem_of_further.
    apply elem_of_app. right. apply list_elem_of_here.
Qed.

Lemma finishes_Sent (ws : list Wire) :
  request_finish ∉ ws -> finishes (Sent <$> ws) = 0%nat.
Proof.
  induction ws as [|x ws IH]; intros Hnot; [reflexivity |].
  apply not_elem_of_cons in Hnot as [Hne Hnot]. rewrite fmap_cons.
  change (finishes (Sent x :: (Sent <$> ws)))
    with (if is_request_finish (Sent x) then S (finishes (Sent <$> ws))
          else finishes (Sent <$> ws)).
  rewrite (IH Hnot). destruct x; try reflexivity. congruence.
Qed.

Lemma finishes_flushed (h : Handler) (writes : list Wire) :
  (writes = [] \/ exists data, writes = [request_write data None]) ->
  finishes (flushed h writes) = 0%nat.
Proof.
  intros Hwrites. unfold flushed. rewrite finishes_app.
  destruct Hwrites as [-> | (data & ->)];
    destruct (has_connection (request h)); reflexivity.
Qed.

(** One operation keeps the link between the flag and the transport:
    either the handler is unfinished and [request.finish()] was not called,
    or it is finished and [request.finish()] was called once. *)
Lemma run_op_finishes (base : nat) (op : Op) (w : World) :
  keeps _finished _log -> keeps _finished on_finish ->
  (forall h, (_log h).1.1 = Ok tt) ->
  (forall h, request_finish ∉ (_log h).2) ->
  (forall h, request_finish ∉ (on_finish h).2) ->
  (finishes (trace w) = base /\ _finished (self w) = false \/
   finishes (trace w) = S base /\ _finished (self w) = true) ->
  finishes (trace (run_op op w).2) = base /\ _finished (self (run_op op w).2) = false \/
  finishes (trace (run_op op w).2) = S base /\ _finished (self (run_op op w).2) = true.
Proof.
  intros Hlog Hon Hlog_ok Hlog_quiet Hon_quiet Hinv.
  destruct op as [c|fin cb|chunk]; simpl.
  - unfold run_method, write.
    destruct (_finished (self w)) eqn:Hfin; simpl; [rewrite Hfin; exact Hinv |].
    destruct c; simpl; rewrite Hfin; exact Hinv.
  - destruct (flush fin cb w) as [r w'] eqn:Hrun. simpl.
    apply flush_spec in Hrun as [Hf Htrace].
    assert (Hfin : _finished (self w') = _finished (self w)) by frame_solve.
    assert (Hcount : finishes (trace w') = finishes (trace w)).
    { destruct Htrace as [-> | (block & chunk & _ & _ & _ & ->)]; [reflexivity |].
      rewrite finishes_app. simpl. lia. }
    rewrite Hfin, Hcount. exact Hinv.
  - destruct (_finished (self w)) eqn:Hfin.
    { rewrite finish_finished by exact Hfin. simpl. rewrite Hfin. exact Hinv. }
    destruct Hinv as [[Hbase _] | [_ Hcontra]]; [| discriminate Hcontra].
    destruct (finish_cases chunk w Hfin)
      as [(e & w1 & Heq & Ht & Hf) | (w1 & Heq & Ht & Hreq & _ & Hf & _)];
      rewrite Heq.
    { left. simpl. rewrite Ht, Hf. tauto. }
    destruct (finish_send w1) as [r w'] eqn:Hsend. simpl.
    apply finish_send_cases in Hsend
      as (writes & h1 & Hwrites & Hframe
          & [(e & _ & _ & Hself & Htrace)
            | [(e & _ & Hraise & _) | (h2 & _ & Hh2 & _ & Hself & Htrace)]]).
    + left. rewrite Htrace, Hself, finishes_app, finishes_flushed, Ht by exact Hwrites.
      split; [lia | frame_solve].
    + rewrite Hlog_ok in Hraise. discriminate Hraise.
    + right. rewrite Htrace, Hself, Hon, Hh2, Ht.
      rewrite !finishes_app, finishes_flushed by exact Hwrites.
      unfold logged. rewrite finishes_app.
      change (Called c_on_finish :: (Sent <$> (on_finish (set_finished true (hook_self _log h1))).2))
        with ([Called c_on_finish] ++ (Sent <$> (on_finish (set_finished true (hook_self _log h1))).2)).
      rewrite finishes_app, !finishes_Sent by auto. simpl. split; [lia | reflexivity].
Qed.

(** X6.  With an access log that does not raise, and hooks that keep off
    [_finished] and do not finish the transport themselves, any sequence
    of writes, flushes and finishes on an unfinished handler calls
    [request.finish()] at most once, and [_finished] is true exactly when
    it was called. *)
Theorem request_finished_at_most_once (ops : list Op) (w : World) :
  keeps _finished _log -> keeps _finished on_finish ->
  (forall h, (_log h).1.1 = Ok tt) ->
  (forall h, request_finish ∉ (_log h).2) ->
  (forall h, request_finish ∉ (on_finish h).2) ->
  _finished (self w) = false ->
  finishes (trace (run_ops ops w)) = finishes (trace w) /\
    _finished (self (run_ops ops w)) = false
  \/
  finishes (trace (run_ops ops w)) = S (finishes (trace w)) /\
    _finished (self (run_ops ops w)) = true.
Proof.
  intros Hlog Hon Hlog_ok Hlog_quiet Hon_quiet Hfin.
  set (base := finishes (trace w)).
  assert (Hinv : finishes (trace w) = base /\ _finished (self w) = false \/
                 finishes (trace w) = S base /\ _finished (self w) = true)
    by (left; split; [reflexivity | exact Hfin]).
  clearbody base. clear Hfin. revert w Hinv.
  induction ops as [|op ops IH]; intros w Hinv; [exact Hinv |].
  change (run_ops (op :: ops) w) with (run_ops ops (run_op op w).2).
  apply IH. apply run_op_finishes; assumption.
Qed.

(** X7.  A 304 with a body is refused: when the status is 304, the
    headers are unwritten and the buffer (the final chunk included) is not
    empty, [finish()] raises the [AssertionError] and leaves the handler
    as [write(chunk)] left it.  Nothing is sent; the handler is unfinished,
    its headers unwritten and its status still 304; the final chunk stays
    buffered.  The headers are the ones [write] left: unchanged without a
    final chunk or with a [bytes] one, while a [dict] chunk has already
    replaced [Content-Type] by the JSON one. *)
Theorem finish_304_with_body (chunk : option Chunk) (w : World) :
  _finished (self w) = false ->
  _headers_written (self w) = false ->
  _status_code (self w) = 304 ->
  _write_buffer (buffered chunk (self w)) <> [] ->
  finish chunk w =
    (Raise (AssertionError "Cannot send body with 304"),
     {| self := buffered chunk (self w); trace := trace w |}) /\
  _finished (buffered chunk (self w)) = false /\
  _headers_written (buffered chunk (self w)) = false /\
  _status_code (buffered chunk (self w)) = 304 /\
  _headers (buffered chunk (self w)) =
    match chunk with
    | Some (chunk_dict _) =>
        <["Content-Type"%string := "application/json; charset=UTF-8"%string]>
          (_headers (self w))
    | _ => _headers (self w)
    end /\
  _write_buffer (buffered chunk (self w)) =
    _write_buffer (self w) ++
    match chunk with
    | Some (chunk_bytes b) => [b]
    | Some (chunk_dict json) => [json]
    | None => []
    end.
Proof.
  intros Hfin Hhw Hst Hbuf.
  destruct (buffered_frame chunk (self w)) as (_ & _ & Hfin' & Hhw' & Hst' & _).
  split; [| split; [congruence | split; [congruence | split; [congruence |]]]].
  - rewrite finish_unfinished by exact Hfin. unfold bind.
    rewrite finish_headers_304 by congruence.
    destruct (_write_buffer (buffered chunk (self w))); [contradiction | reflexivity].
  - destruct chunk as [[b|json]|]; simpl; unfold write; rewrite ?Hfin; simpl;
      rewrite ?app_nil_r; split; reflexivity.
Qed.

(** X8.  Once the headers are written, [finish()] skips its header logic
    altogether (no [Etag], no [Content-Length], no 304): it sends from the
    handler as it is, and with the empty transform list on a request that
    is not HEAD its flush writes the buffered bytes alone. *)
Theorem finish_after_headers (chunk : option Chunk) (w : World) :
  _finished (self w) = false ->
  _headers_written (self w) = true ->
  finish chunk w =
    finish_send {| self := buffered chunk (self w); trace := trace w |} /\
  (_transforms (self w) = Some [] ->
   method (request (self w)) <> "HEAD"%string ->
   forall t : list Event,
     flush true None {| self := buffered chunk (self w); trace := t |} =
       (Ok tt,
        {| self := set_write_buffer [] (buffered chunk (self w));
           trace := t ++ [Sent (request_write
                                  (join (_write_buffer (buffered chunk (self w))))
                                  None)] |})).
Proof.
  intros Hfin Hhw.
  destruct (buffered_frame chunk (self w)) as (Hreq & _ & _ & Hhw' & _ & Hts & _).
  split.
  - rewrite finish_unfinished by exact Hfin. unfold bind.
    rewrite finish_headers_written by congruence. reflexivity.
  - intros Hempty Hm t. rewrite flush_later_plain; simpl; try congruence.
    rewrite Hreq.
    destruct (String.eqb_spec (method (request (self w))) "HEAD");
      [contradiction | reflexivity].
Qed.

(** The header logic when the response is not sent as a 304: at most an
    [Etag] and a [Content-Length] are added. *)
Lemma finish_headers_not_304 (h : Handler) (t : list Event) :
  _headers_written h = false ->
  not_modified h = false ->
  finish_headers {| self := h; trace := t |} =
    (Ok tt,
     {| self := (default_content_length
                   (if wants_etag h then (set_etag_header h).2 else h)).2;
        trace := t |}).
Proof.
  intros Hhw Hnm. apply not_modified_false in Hnm as [Hst Hnomatch].
  destruct (wants_etag h) eqn:Hwants.
  - apply finish_headers_no_match; auto.
  - apply finish_headers_other; assumption.
Qed.

Lemma wants_etag_with_etag (h : Handler) (v : string) :
  _headers h !! "Etag"%string = Some v -> wants_etag h = false.
Proof.
  intros Hetag. unfold wants_etag. rewrite Hetag.
  rewrite (bool_decide_eq_true_2 (is_Some (Some v))) by (eexists; reflexivity).
  apply andb_false_r.
Qed.

(** X9.  An explicit [Content-Length] is never replaced nor checked
    against the body: unless the response is sent as a 304, [finish()]
    reaches its flush with the value the handler set. *)
Theorem finish_keeps_content_length (chunk : option Chunk) (w : World) (v : string) :
  _finished (self w) = false ->
  _headers_written (self w) = false ->
  _headers (self w) !! "Content-Length"%string = Some v ->
  not_modified (buffered chunk (self w)) = false ->
  exists h',
    _headers h' !! "Content-Length"%string = Some v /\
    _write_buffer h' = _write_buffer (buffered chunk (self w)) /\
    finish chunk w = finish_send {| self := h'; trace := trace w |}.
Proof.
  intros Hfin Hhw Hcl Hnm.
  destruct (buffered_frame chunk (self w))
    as (_ & _ & _ & Hhw' & _ & _ & _ & Hcl').
  rewrite Hhw in Hhw'. rewrite Hcl in Hcl'.
  set (h := buffered chunk (self w)) in *.
  rewrite finish_unfinished by exact Hfin. fold h. unfold bind.
  rewrite finish_headers_not_304 by assumption.
  exists (default_content_length
            (if wants_etag h then (set_etag_header h).2 else h)).2.
  split; [| split; [| reflexivity]].
  - unfold default_content_length.
    assert (Hkept : _headers (if wants_etag h then (set_etag_header h).2 else h)
                      !! "Content-Length"%string = Some v).
    { destruct (wants_etag h); [| exact Hcl'].
      destruct (set_etag_header_frame h) as (_ & _ & _ & Hsame). congruence. }
    rewrite Hkept.
    rewrite (bool_decide_eq_true_2 (is_Some (Some v))) by (eexists; reflexivity).
    simpl. exact Hkept.
  - destruct (default_content_length_frame
                (if wants_etag h then (set_etag_header h).2 else h)) as (Hf & _).
    destruct (wants_etag h); [| frame_solve].
    destruct (set_etag_header_frame h) as (Hf' & _). frame_solve.
Qed.

(** X10.  An [Etag] set by the handler is left alone and switches the
    conditional-request handling off: whatever the request's
    [If-None-Match] says, [finish()] keeps the header, the status and the
    buffered body. *)
Theorem finish_keeps_etag (chunk : option Chunk) (w : World) (v : string) :
  _finished (self w) = false ->
  _headers_written (self w) = false ->
  _headers (self w) !! "Etag"%string = Some v ->
  _status_code (self w) <> 304 ->
  exists h',
    _headers h' !! "Etag"%string = Some v /\
    _status_code h' = _status_code (self w) /\
    _write_buffer h' = _write_buffer (buffered chunk (self w)) /\
    finish chunk w = finish_send {| self := h'; trace := trace w |}.
Proof.
  intros Hfin Hhw Hetag Hst.
  destruct (buffered_frame chunk (self w))
    as (_ & _ & _ & Hhw' & Hst' & _ & Hetag' & _).
  rewrite Hhw in Hhw'. rewrite Hetag in Hetag'.
  set (h := buffered chunk (self w)) in *.
  pose proof (wants_etag_with_etag h v Hetag') as Hwants.
  rewrite finish_unfinished by exact Hfin. fold h. unfold bind.
  rewrite finish_headers_other by congruence.
  destruct (default_content_length_frame h) as (Hf & Hst'' & _ & Hsame).
  exists (default_content_length h).2.
  repeat split; [congruence | congruence | frame_solve].
Qed.

(** [finish] sets the length and reaches its flush with everything else
    in place. *)
Lemma finish_length_frame (chunk : option Chunk) (w : World) :
  _finished (self w) = false ->
  _headers_written (self w) = false ->
  _headers (self w) !! "Content-Length"%string = None ->
  not_modified (buffered chunk (self w)) = false ->
  exists h',
    _headers h' !! "Content-Length"%string
      = Some (pretty (sum_len (_write_buffer (buffered chunk (self w))))) /\
    frame (buffered chunk (self w)) h' /\
    _transforms h' = _transforms (self w) /\
    finish chunk w = finish_send {| self := h'; trace := trace w |}.
Proof.
  intros Hfin Hhw Hcl Hnm.
  destruct (buffered_frame chunk (self w))
    as (_ & _ & _ & Hhw' & _ & Hts & _ & Hcl').
  rewrite Hhw in Hhw'. rewrite Hcl in Hcl'.
  set (h := buffered chunk (self w)) in *.
  rewrite finish_unfinished by exact Hfin. fold h. unfold bind.
  rewrite finish_headers_not_304 by assumption.
  set (h1 := if wants_etag h then (set_etag_header h).2 else h).
  assert (H1 : frame h h1 /\ _transforms h1 = _transforms h /\
               _headers h1 !! "Content-Length"%string = None).
  { subst h1. destruct (wants_etag h).
    - destruct (set_etag_header_frame h) as (Hf & _ & Hts' & Hsame).
      split; [exact Hf |]. split; [exact Hts' | congruence].
    - split; [apply frame_refl |]. split; [reflexivity | exact Hcl']. }
  destruct H1 as (Hf1 & Hts1 & Hcl1).
  destruct (default_content_length_frame h1) as (Hf2 & _ & Hts2 & _).
  exists (default_content_length h1).2.
  split; [| split; [| split; [| reflexivity]]].
  - unfold default_content_length. rewrite Hcl1.
    rewrite bool_decide_eq_false_2 by (intros [? Hs]; discriminate Hs).
    simpl. rewrite lookup_insert_eq. do 3 f_equal. frame_solve.
  - eapply frame_trans; eassumption.
  - congruence.
Qed.

(** X11.  The length announced is the length sent: with headers unwritten,
    no explicit [Content-Length], no 304, the empty transform list and a
    request that is not HEAD, the [Content-Length] that [finish()] sets is
    the number of body bytes that its flush writes after the header
    block. *)
Theorem content_length_is_body_length (chunk : option Chunk) (w : World) :
  _finished (self w) = false ->
  _headers_written (self w) = false ->
  _headers (self w) !! "Content-Length"%string = None ->
  not_modified (buffered chunk (self w)) = false ->
  _transforms (self w) = Some [] ->
  method (request (self w)) <> "HEAD"%string ->
  exists (h' : Handler) (body : bytes),
    _headers h' !! "Content-Length"%string
      = Some (pretty (Z.of_nat (String.length body))) /\
    finish chunk w = finish_send {| self := h'; trace := trace w |} /\
    forall (t : list Event) (block : bytes),
      _generate_headers (set_headers_written true (set_write_buffer [] h'))
        = Ok block ->
      flush true None {| self := h'; trace := t |} =
        (Ok tt,
         {| self := set_headers_written true (set_write_buffer [] h');
            trace := t ++ [Sent (request_write (block +:+ body) None)] |}).
Proof.
  intros Hfin Hhw Hcl Hnm Hts Hm.
  destruct (finish_sets_content_length chunk w Hfin Hhw Hcl Hnm)
    as (h' & Hlen & _ & _ & Heq & Hflush).
  exists h', (join (_write_buffer (buffered chunk (self w)))).
  rewrite length_join. split; [exact Hlen |]. split; [exact Heq |].
  apply Hflush; assumption.
Qed.

(** X12.  A HEAD response announces the body it does not send: with
    headers unwritten, no explicit [Content-Length], no 304 and the empty
    transform list, [finish()] on a HEAD request sets [Content-Length] to
    the size of the buffered body, and its flush writes the header block
    alone. *)
Theorem finish_HEAD_announces_length (chunk : option Chunk) (w : World) :
  _finished (self w) = false ->
  _headers_written (self w) = false ->
  _headers (self w) !! "Content-Length"%string = None ->
  not_modified (buffered chunk (self w)) = false ->
  _transforms (self w) = Some [] ->
  method (request (self w)) = "HEAD"%string ->
  exists h',
    _headers h' !! "Content-Length"%string
      = Some (pretty (sum_len (_write_buffer (buffered chunk (self w))))) /\
    finish chunk w = finish_send {| self := h'; trace := trace w |} /\
    forall (t : list Event) (block : bytes),
      _generate_headers (set_headers_written true (set_write_buffer [] h'))
        = Ok block ->
      block <> ""%string ->
      flush true None {| self := h'; trace := t |} =
        (Ok tt,
         {| self := set_headers_written true (set_write_buffer [] h');
            trace := t ++ [Sent (request_write block None)] |}).
Proof.
  intros Hfin Hhw Hcl Hnm Hts Hm.
  destruct (finish_length_frame chunk w Hfin Hhw Hcl Hnm)
    as (h' & Hlen & Hf & Hts' & Heq).
  destruct (buffered_frame chunk (self w)) as (Hreq & _ & _ & Hhw' & _).
  exists h'. split; [exact Hlen |]. split; [exact Heq |].
  intros t block Hgen Hne.
  assert (Hreq' : request h' = request (self w)) by frame_solve.
  rewrite (flush_first_plain true None _ block); simpl.
  - rewrite Hreq', Hm. reflexivity.
  - congruence.
  - frame_solve.
  - exact Hgen.
  - intros _. exact Hne.
Qed.

End Completion.

Section Dispatch.

Context `{Inherited}.

(** *** The way through [_execute] *)

(** The XSRF check is left out: the method is safe, or the setting is
    off. *)
Lemma execute_try_without_xsrf (w : World) :
  method (request (self w)) ∈ SUPPORTED_METHODS ->
  method (request (self w)) ∈ ["GET"; "HEAD"; "OPTIONS"]%string
  \/ truthy (settings_get (application (self w)) "xsrf_cookies") = false ->
  _execute_try w =
    (result <- call c_prepare prepare ;;
     emit (Called c_when_complete) ;;
     _when_complete result _execute_method) w.
Proof.
  intros Hsup Hsafe. unfold _execute_try. unfold bind at 1, get.
  rewrite (bool_decide_eq_true_2 _ Hsup). simpl. unfold bind at 1.
  destruct Hsafe as [Hsafe | Hoff].
  - rewrite (bool_decide_eq_true_2 _ Hsafe). reflexivity.
  - rewrite Hoff, andb_false_r. reflexivity.
Qed.

(** Past the method check and without the XSRF check, [_execute] calls
    [prepare()] and hands its result to [_when_complete]. *)
Lemma execute_reaches_prepare (transforms : list Transform) (w : World)
    (result : PrepareResult) (h1 : Handler) (ws1 : list Wire) :
  method (request (self w)) ∈ SUPPORTED_METHODS ->
  method (request (self w)) ∈ ["GET"; "HEAD"; "OPTIONS"]%string
  \/ truthy (settings_get (application (self w)) "xsrf_cookies") = false ->
  prepare (set_transforms (Some transforms) (self w)) = (Ok result, h1, ws1) ->
  _execute transforms w =
    try_except_Exception (_when_complete result _execute_method)
      (fun e => call (c_handle_request_exception e) (_handle_request_exception e))
      {| self := h1;
         trace := (trace w ++ Called c_prepare :: (Sent <$> ws1))
                  ++ [Called c_when_complete] |}.
Proof.
  intros Hsup Hsafe Hprep.
  unfold _execute, bind, modify, try_except_Exception.
  rewrite execute_try_without_xsrf by assumption.
  unfold bind at 1. rewrite call_eq. simpl. rewrite Hprep. simpl.
  reflexivity.
Qed.

(** X13.  For a supported method that is GET, HEAD or OPTIONS, or when
    the [xsrf_cookies] setting is absent or false, [_execute] does not
    call [check_xsrf_cookie]: its first call is [prepare()], and when that
    returns, the dispatch is started through [_when_complete] with the
    result of [prepare()] and [_execute_method] as callback, still inside
    the error boundary. *)
Theorem execute_without_xsrf_check (transforms : list Transform) (w : World)
    (result : PrepareResult) (h1 : Handler) (ws1 : list Wire) :
  method (request (self w)) ∈ SUPPORTED_METHODS ->
  method (request (self w)) ∈ ["GET"; "HEAD"; "OPTIONS"]%string
  \/ truthy (settings_get (application (self w)) "xsrf_cookies") = false ->
  prepare (set_transforms (Some transforms) (self w)) = (Ok result, h1, ws1) ->
  _execute transforms w =
    try_except_Exception (_when_complete result _execute_method)
      (fun e => call (c_handle_request_exception e) (_handle_request_exception e))
      {| self := h1;
         trace := (trace w ++ Called c_prepare :: (Sent <$> ws1))
                  ++ [Called c_when_complete] |}.
Proof. apply execute_reaches_prepare. Qed.

(** X14.  When [prepare()] raises an [Exception] (the XSRF check being
    left out as above), the dispatch is never started: the exception goes
    to [_handle_request_exception], and neither [_when_complete] nor the
    routing collaborator is called. *)
Theorem execute_prepare_failure (transforms : list Transform) (w : World)
    (e : Exn) (h1 : Handler) (ws1 : list Wire) :
  method (request (self w)) ∈ SUPPORTED_METHODS ->
  method (request (self w)) ∈ ["GET"; "HEAD"; "OPTIONS"]%string
  \/ truthy (settings_get (application (self w)) "xsrf_cookies") = false ->
  prepare (set_transforms (Some transforms) (self w)) = (Raise e, h1, ws1) ->
  is_Exception e = true ->
  exists (r : Res unit) (h' : Handler) (ws : list Wire),
    _handle_request_exception e h1 = (r, h', ws) /\
    _execute transforms w =
      (r, {| self := h';
             trace := (trace w ++ Called c_prepare :: (Sent <$> ws1))
                      ++ Called (c_handle_request_exception e)
                      :: (Sent <$> ws) |}) /\
    forall c, Called c ∈ (Called c_prepare :: (Sent <$> ws1))
                         ++ Called (c_handle_request_exception e)
                         :: (Sent <$> ws) ->
              c <> c_check_xsrf_cookie /\ c <> c_when_complete /\
              c <> c_handle_request.
Proof.
  intros Hsup Hsafe Hprep Hexc.
  destruct (_handle_request_exception e h1) as [[r h'] ws] eqn:Hh.
  exists r, h', ws. split; [reflexivity |]. split.
  - rewrite (execute_catches transforms w
               {| self := h1;
                  trace := trace w ++ Called c_prepare :: (Sent <$> ws1) |} e).
    + rewrite call_eq. simpl. rewrite Hh. reflexivity.
    + rewrite execute_try_without_xsrf by assumption.
      unfold bind at 1. rewrite call_eq. simpl. rewrite Hprep. reflexivity.
    + exact Hexc.
  - intros c Hin.
    apply elem_of_app in Hin as [Hin|Hin];
      apply elem_of_cons in Hin as [Heq|Hin];
      try (destruct (Called_not_Sent _ _ Hin));
      injection Heq as ->; repeat split; discriminate.
Qed.

(** *** Around the error boundary *)

(** X15.  The error boundary of [_execute] does not cover the
    construction of the handler: an exception raised by [initialize()]
    inside [__init__] leaves [Application.__call__] as it is, [_execute]
    is not run and [_handle_request_exception] is not called. *)
Theorem call_init_failure_escapes (a : Application) (r : HTTPRequest) (e : Exn) :
  (__init__ a r).1 = Raise e ->
  __call__ a r = (Raise e, (__init__ a r).2) /\
  forall c, Called c ∈ trace (__call__ a r).2 -> c = c_initialize.
Proof.
  intros Hinit. unfold __call__.
  destruct (__init__ a r) as [[[]|e'] w] eqn:Hrun; simpl in Hinit;
    [discriminate Hinit |].
  injection Hinit as ->. split; [reflexivity |].
  simpl. intros c Hin.
  unfold __init__, bind, run_method, clear in Hrun; simpl in Hrun.
  rewrite call_eq in Hrun. simpl in Hrun. injection Hrun as _ <-.
  simpl in Hin. apply elem_of_cons in Hin as [Heq|Hin].
  - injection Heq as ->. reflexivity.
  - destruct (Called_not_Sent _ _ Hin).
Qed.

(** *** [Application.__init__] *)

(** The constructor leaves the settings empty. *)
Lemma application_init_settings (setup : RootModule -> Res unit)
    (handler : option HandlerClass) (root : option RootModule)
    (a : ApplicationObject) (evs : list SetupEvent) :
  Application__init__ setup handler root = (Ok a, evs) ->
  app_settings a = ∅.
Proof.
  unfold Application__init__. intros Hinit.
  destruct (root_given root) as [r0|].
  - destruct (setup r0) as [[]|e]; [| discriminate Hinit].
    injection Hinit as <- _. reflexivity.
  - destruct handler as [c|]; [| discriminate Hinit].
    injection Hinit as <- _. reflexivity.
Qed.

(** X16.  An application that was constructed has a handler class: the
    one given, or [RequestHandler] when only a root module was given;
    its settings are empty, and [root.setup()] was called exactly when the
    root module is there and truthy. *)
Theorem application_init_contract (setup : RootModule -> Res unit)
    (handler : option HandlerClass) (root : option RootModule)
    (a : ApplicationObject) (evs : list SetupEvent) :
  Application__init__ setup handler root = (Ok a, evs) ->
  app_handler a = Some (default RequestHandler_class handler) /\
  (handler = None -> is_Some (root_given root)) /\
  app_settings a = ∅ /\
  app_root a = root /\
  app_wsgi a = false /\
  (forall r, root_setup r ∈ evs <-> root_given root = Some r).
Proof.
  unfold Application__init__. intros Hinit.
  destruct (root_given root) as [r0|] eqn:Hroot.
  - destruct (setup r0) as [[]|e]; [| discriminate Hinit].
    injection Hinit as <- <-. simpl.
    repeat split; try (destruct handler; reflexivity).
    + intros _. eexists. reflexivity.
    + intros Hin. apply elem_of_cons in Hin as [Heq|Hin].
      * injection Heq as ->. reflexivity.
      * apply list_elem_of_singleton in Hin. discriminate Hin.
    + intros Heq. injection Heq as ->. apply list_elem_of_here.
  - destruct handler as [c|]; [| discriminate Hinit].
    injection Hinit as <- <-. simpl.
    repeat split; try discriminate.
    intros Hin. apply list_elem_of_singleton in Hin. discriminate Hin.
Qed.

(** X17.  With neither a handler class nor a usable root module the
    constructor fails on its assertion before anything is set up. *)
Theorem application_init_needs_handler (setup : RootModule -> Res unit)
    (root : option RootModule) :
  root_given root = None ->
  Application__init__ setup None root = (Raise (AssertionError ""), []).
Proof. intros Hroot. unfold Application__init__. rewrite Hroot. reflexivity. Qed.

(** X18.  Out of the constructor XSRF protection is off: a handler of an
    application as [Application.__init__] builds it (empty settings) goes
    from the method check straight to [prepare()], also for POST and the
    other body-bearing methods. *)
Theorem fresh_application_skips_xsrf (setup : RootModule -> Res unit)
    (handler : option HandlerClass) (root : option RootModule)
    (a : ApplicationObject) (evs : list SetupEvent)
    (transforms : list Transform) (w : World)
    (result : PrepareResult) (h1 : Handler) (ws1 : list Wire) :
  Application__init__ setup handler root = (Ok a, evs) ->
  application (self w) = application_of a ->
  method (request (self w)) ∈ SUPPORTED_METHODS ->
  prepare (set_transforms (Some transforms) (self w)) = (Ok result, h1, ws1) ->
  _execute transforms w =
    try_except_Exception (_when_complete result _execute_method)
      (fun e => call (c_handle_request_exception e) (_handle_request_exception e))
      {| self := h1;
         trace := (trace w ++ Called c_prepare :: (Sent <$> ws1))
                  ++ [Called c_when_complete] |}.
Proof.
  intros Hinit Happ Hsup Hprep.
  apply application_init_settings in Hinit as Hset.
  apply execute_reaches_prepare; try assumption.
  right. rewrite Happ. unfold settings_get, application_of; simpl.
  rewrite Hset, lookup_empty. reflexivity.
Qed.

End Dispatch.

(** *** The [part] extension *)

(** X19.  [_cache_support] caches nothing: rendering a list of [part]
    blocks, whatever their names and timeouts and however often a name
    recurs, calls the block renderer once per block, in order, each call
    on the state the one before left; the value returned for a block is
    the value the renderer returned on that call, never an earlier one;
    and one line is printed per block. *)
Theorem render_parts_never_caches {St : Type} (parts : list (string * option Z))
    (caller : St -> Res string * St) (s s' : St * list string) (rvs : list string) :
  Future.render_parts parts caller s = (Ok rvs, s') ->
  length rvs = length parts /\
  (forall (i : nat) (rv : string),
      rvs !! i = Some rv ->
      (caller (Nat.iter i (fun st => (caller st).2) s.1)).1 = Ok rv) /\
  s'.1 = Nat.iter (length parts) (fun st => (caller st).2) s.1 /\
  s'.2 = s.2 ++ ((fun p : string * option Z => "get cache " +:+ p.1) <$> parts).
Proof.
  revert s s' rvs. induction parts as [|[name timeout] parts IH];
    intros s s' rvs Hrun; simpl in Hrun.
  - injection Hrun as <- <-. simpl. rewrite app_nil_r. repeat split.
    intros i rv Hi. destruct i; discriminate Hi.
  - unfold Future._cache_support in Hrun.
    destruct (caller s.1) as [[rv|e] st] eqn:Hcall; [| discriminate Hrun].
    destruct (Future.render_parts parts caller
                (st, s.2 ++ ["get cache " +:+ name])) as [[rest|e] s2] eqn:Hrest;
      [| discriminate Hrun].
    injection Hrun as <- <-.
    apply IH in Hrest as (Hlen & Hrvs & Hstate & Hout).
    simpl in Hrvs, Hstate, Hout.
    split; [simpl; by rewrite Hlen |]. split; [| split].
    + intros [|i] rv' Hi.
      * injection Hi as <-. simpl. rewrite Hcall. reflexivity.
      * rewrite Nat.iter_succ_r, Hcall. apply Hrvs. exact Hi.
    + rewrite Hstate.
      change (length ((name, timeout) :: parts)) with (S (length parts)).
      rewrite Nat.iter_succ_r, Hcall. reflexivity.
    + rewrite Hout, <- app_assoc. reflexivity.
Qed.

(** ** These statements at work *)

Section MoreWitnesses.

Import Plain.

(** A transform that fails, two chunks buffered. *)
Lemma flush_failure_loses_buffer_witness :
  let w := {| self := set_transforms (Some [Variants.broken_transform])
                        (self (ab_cd (req "GET" ∅)));
              trace := [] |} in
  let w' := (@flush handler false None w).2 in
  @flush handler false None w = (Raise (ValueError "broken"), w') /\
  trace w' = trace w /\
  _write_buffer (self w') = [] /\
  _headers_written (self w') = true.
Proof.
  intros w w'.
  assert (Hrun : @flush handler false None w = (Raise (ValueError "broken"), w'))
    by reflexivity.
  split; [exact Hrun |].
  apply (@flush_failure_loses_buffer handler false None w w' _ Hrun).
Defined.

(** A handler fresh from its constructor, one chunk written. *)
Lemma flush_before_execute_witness :
  let w := (run_method (write (chunk_bytes "ab"))
              (@__init__ handler app (req "GET" ∅)).2).2 in
  (_transforms (self w) = None /\ _write_buffer (self w) = ["ab"%string]) /\
  exists msg w',
    @flush handler false None w = (Raise (TypeError msg), w') /\
    trace w' = trace w /\
    _write_buffer (self w') = [] /\
    _headers_written (self w') = true /\
    _finished (self w') = _finished (self w) /\
    _headers (self w') = _headers (self w) /\
    _status_code (self w') = _status_code (self w).
Proof.
  intros w. split; [split; reflexivity |].
  apply (@flush_before_execute handler false None w). reflexivity.
Defined.

(** [write(b"ab")], [flush()], [write(b"cd")], [write(b"ef")], [flush()]. *)
Lemma streaming_conserves_bytes_witness :
  let w := fresh app (req "GET" ∅) in
  let block := ("HTTP/1.1 200 OK" +:+ CRLF
                +:+ "Server: TornadoServer" +:+ CRLF
                +:+ "Content-Type: text/html; charset=UTF-8" +:+ CRLF
                +:+ CRLF)%string in
  let ops := [op_write (chunk_bytes "ab"); op_flush false None;
              op_write (chunk_bytes "cd"); op_write (chunk_bytes "ef")] in
  (@streamable handler block (self w) /\ forallb streams ops = true) /\
  wire_bytes (trace (@run_ops handler (ops ++ [op_flush false (Some 3%nat)]) w))
    = (wire_bytes (trace w) +:+ pending block (self w)
       +:+ join (chunks_of ops))%string /\
  wire_bytes (trace (@run_ops handler (ops ++ [op_flush false (Some 3%nat)]) w))
    = (block +:+ "abcdef")%string.
Proof.
  intros w block ops.
  assert (Hs : @streamable handler block (self w)).
  { repeat split; try reflexivity. compute_done. }
  split; [split; [exact Hs | reflexivity] |].
  split; [| reflexivity].
  apply (@streaming_conserves_bytes handler block ops w false (Some 3%nat) Hs).
  reflexivity.
Defined.

(** A GET request with a connection, two chunks buffered. *)
Lemma finish_wire_order_witness :
  let w := ab_cd (req "GET" ∅) in
  (@finish handler None w).1 = Ok tt /\
  exists (writes log_sent on_finish_sent : list Wire),
    (writes = [] \/ exists data, writes = [request_write data None]) /\
    trace (@finish handler None w).2 =
      trace w ++ flushed (self w) writes ++ logged log_sent
      ++ Called c_on_finish :: (Sent <$> on_finish_sent).
Proof.
  intros w.
  assert (Hok : (@finish handler None w).1 = Ok tt) by reflexivity.
  split; [exact Hok |].
  apply (@finish_wire_order handler None w Hok).
Defined.

(** An access log that raises: the response is out, the transport is
    finished, the handler is not. *)
Lemma finish_marks_finished_last_witness :
  let w := ab_cd (req "GET" ∅) in
  let w' := (@finish Variants.failing_log None w).2 in
  (keeps _finished (@_log Variants.failing_log) /\
   keeps _finished (@on_finish Variants.failing_log) /\
   _finished (self w) = false /\
   (@finish Variants.failing_log None w).1 = Raise (OtherException "IOError") /\
   Sent request_finish ∈ trace w' /\
   _finished (self w') = false) /\
  exists ev : list Event,
    trace w' = trace w ++ ev /\
    (_finished (self w') = true <-> Called c_on_finish ∈ ev).
Proof.
  intros w w'.
  assert (Hl : keeps _finished (@_log Variants.failing_log))
    by (intros h; reflexivity).
  assert (Ho : keeps _finished (@on_finish Variants.failing_log))
    by (intros h; reflexivity).
  assert (Hin : Sent request_finish ∈ trace w').
  { vm_compute. do 2 apply list_elem_of_further. apply list_elem_of_here. }
  split.
  - repeat split; solve [exact Hl | exact Ho | exact Hin | reflexivity].
  - apply (@finish_marks_finished_last Variants.failing_log None w Hl Ho).
    reflexivity.
Defined.

(** Finish, then everything once more. *)
Lemma request_finished_at_most_once_witness :
  let w := ab_cd (req "GET" ∅) in
  let ops := [op_flush false None; op_finish (Some (chunk_bytes "ef"));
              op_finish None; op_flush true None; op_write (chunk_bytes "gh");
              op_finish None] in
  (keeps _finished (@_log handler) /\ keeps _finished (@on_finish handler) /\
   (forall h, (@_log handler h).1.1 = Ok tt) /\
   (forall h, request_finish ∉ (@_log handler h).2) /\
   (forall h, request_finish ∉ (@on_finish handler h).2) /\
   _finished (self w) = false) /\
  (finishes (trace (@run_ops handler ops w)) = finishes (trace w) /\
     _finished (self (@run_ops handler ops w)) = false
   \/
   finishes (trace (@run_ops handler ops w)) = S (finishes (trace w)) /\
     _finished (self (@run_ops handler ops w)) = true) /\
  finishes (trace (@run_ops handler ops w)) = 1%nat.
Proof.
  intros w ops.
  assert (H1 : keeps _finished (@_log handler)) by (intros h; reflexivity).
  assert (H2 : keeps _finished (@on_finish handler)) by (intros h; reflexivity).
  assert (H3 : forall h, (@_log handler h).1.1 = Ok tt) by (intros h; reflexivity).
  assert (H4 : forall h, request_finish ∉ (@_log handler h).2)
    by (intros h Hin; by apply elem_of_nil in Hin).
  assert (H5 : forall h, request_finish ∉ (@on_finish handler h).2)
    by (intros h Hin; by apply elem_of_nil in Hin).
  split; [repeat split; solve [exact H1 | exact H2 | exact H3 | exact H4 | exact H5] |].
  split; [| reflexivity].
  apply (@request_finished_at_most_once handler ops w H1 H2 H3 H4 H5).
  reflexivity.
Defined.

(** Status 304 set by the handler, two chunks in the buffer, a [dict] as
    final chunk. *)
Lemma finish_304_with_body_witness :
  let w := {| self := set_status_code 304 (self (ab_cd (req "GET" ∅)));
              trace := [] |} in
  let chunk := Some (chunk_dict "{}") in
  (_finished (self w) = false /\
   _headers_written (self w) = false /\
   _status_code (self w) = 304 /\
   _write_buffer (buffered chunk (self w)) <> [] /\
   _headers (self w) !! "Content-Type"%string
     = Some "text/html; charset=UTF-8"%string /\
   _headers (buffered chunk (self w)) !! "Content-Type"%string
     = Some "application/json; charset=UTF-8"%string) /\
  @finish handler chunk w =
    (Raise (AssertionError "Cannot send body with 304"),
     {| self := buffered chunk (self w); trace := trace w |}) /\
  _finished (buffered chunk (self w)) = false /\
  _headers_written (buffered chunk (self w)) = false /\
  _status_code (buffered chunk (self w)) = 304 /\
  _headers (buffered chunk (self w)) =
    <["Content-Type"%string := "application/json; charset=UTF-8"%string]>
      (_headers (self w)) /\
  _write_buffer (buffered chunk (self w)) = _write_buffer (self w) ++ ["{}"%string].
Proof.
  intros w chunk.
  assert (Hb : _write_buffer (buffered chunk (self w)) <> []) by discriminate.
  split; [repeat split; solve [exact Hb | reflexivity | vm_compute; reflexivity] |].
  apply (@finish_304_with_body handler chunk w);
    solve [exact Hb | reflexivity].
Defined.

(** Two chunks flushed, a third written, then [finish()]. *)
Lemma finish_after_headers_witness :
  let w := @run_ops handler [op_flush false None; op_write (chunk_bytes "ef")]
             (ab_cd (req "GET" ∅)) in
  (_finished (self w) = false /\ _headers_written (self w) = true) /\
  @finish handler None w =
    @finish_send handler {| self := buffered None (self w); trace := trace w |} /\
  (_transforms (self w) = Some [] ->
   method (request (self w)) <> "HEAD"%string ->
   forall t : list Event,
     @flush handler true None {| self := buffered None (self w); trace := t |} =
       (Ok tt,
        {| self := set_write_buffer [] (buffered None (self w));
           trace := t ++ [Sent (request_write
                                  (join (_write_buffer (buffered None (self w))))
                                  None)] |})).
Proof.
  intros w. split; [split; reflexivity |].
  apply (@finish_after_headers handler None w); reflexivity.
Defined.

(** A [Content-Length] of 99 set by the handler on a body of four bytes. *)
Lemma finish_keeps_content_length_witness :
  let w := Variants.with_headers (req "GET" ∅)
             {[ "Content-Length"%string := "99"%string ]} in
  (_finished (self w) = false /\
   _headers_written (self w) = false /\
   _headers (self w) !! "Content-Length"%string = Some "99"%string /\
   @not_modified handler (buffered None (self w)) = false) /\
  exists h',
    _headers h' !! "Content-Length"%string = Some "99"%string /\
    _write_buffer h' = _write_buffer (buffered None (self w)) /\
    @finish handler None w = @finish_send handler {| self := h'; trace := trace w |}.
Proof.
  intros w. split; [repeat split; reflexivity |].
  apply (@finish_keeps_content_length handler None w "99"); reflexivity.
Defined.

(** An [Etag] set by the handler, and a request whose [If-None-Match]
    names it. *)
Lemma finish_keeps_etag_witness :
  let w := Variants.with_headers
             (req "GET" {[ "If-None-Match"%string := "v1"%string ]})
             {[ "Etag"%string := "v1"%string ]} in
  (_finished (self w) = false /\
   _headers_written (self w) = false /\
   _headers (self w) !! "Etag"%string = Some "v1"%string /\
   _status_code (self w) <> 304 /\
   @check_etag_header handler (self w) = true) /\
  exists h',
    _headers h' !! "Etag"%string = Some "v1"%string /\
    _status_code h' = _status_code (self w) /\
    _write_buffer h' = _write_buffer (buffered None (self w)) /\
    @finish handler None w = @finish_send handler {| self := h'; trace := trace w |}.
Proof.
  intros w.
  assert (Hst : _status_code (self w) <> 304) by discriminate.
  split; [repeat split; solve [exact Hst | reflexivity] |].
  apply (@finish_keeps_etag handler None w "v1");
    solve [exact Hst | reflexivity].
Defined.

(** The scenario of two buffered chunks on a GET request. *)
Lemma content_length_is_body_length_witness :
  let w := ab_cd (req "GET" ∅) in
  (_finished (self w) = false /\
   _headers_written (self w) = false /\
   _headers (self w) !! "Content-Length"%string = None /\
   @not_modified handler (buffered None (self w)) = false /\
   _transforms (self w) = Some [] /\
   method (request (self w)) <> "HEAD"%string) /\
  exists (h' : Handler) (body : bytes),
    _headers h' !! "Content-Length"%string
      = Some (pretty (Z.of_nat (String.length body))) /\
    @finish handler None w = @finish_send handler {| self := h'; trace := trace w |} /\
    forall (t : list Event) (block : bytes),
      @_generate_headers handler (set_headers_written true (set_write_buffer [] h'))
        = Ok block ->
      @flush handler true None {| self := h'; trace := t |} =
        (Ok tt,
         {| self := set_headers_written true (set_write_buffer [] h');
            trace := t ++ [Sent (request_write (block +:+ body) None)] |}).
Proof.
  intros w.
  assert (Hm : method (request (self w)) <> "HEAD"%string) by discriminate.
  split; [repeat split; solve [exact Hm | reflexivity] |].
  apply (@content_length_is_body_length handler None w);
    solve [exact Hm | reflexivity].
Defined.

(** The same on a HEAD request: the wire carries the header block only. *)
Lemma finish_HEAD_announces_length_witness :
  let w := ab_cd (req "HEAD" ∅) in
  (_finished (self w) = false /\
   _headers_written (self w) = false /\
   _headers (self w) !! "Content-Length"%string = None /\
   @not_modified handler (buffered None (self w)) = false /\
   _transforms (self w) = Some [] /\
   method (request (self w)) = "HEAD"%string /\
   wire_bytes (trace (@finish handler None w).2)
     = ("HTTP/1.1 200 OK" +:+ CRLF
        +:+ "Server: TornadoServer" +:+ CRLF
        +:+ "Content-Length: 4" +:+ CRLF
        +:+ "Content-Type: text/html; charset=UTF-8" +:+ CRLF
        +:+ "Etag: etag-4-abcd" +:+ CRLF
        +:+ CRLF)%string) /\
  exists h',
    _headers h' !! "Content-Length"%string
      = Some (pretty (sum_len (_write_buffer (buffered None (self w))))) /\
    @finish handler None w = @finish_send handler {| self := h'; trace := trace w |} /\
    forall (t : list Event) (block : bytes),
      @_generate_headers handler (set_headers_written true (set_write_buffer [] h'))
        = Ok block ->
      block <> ""%string ->
      @flush handler true None {| self := h'; trace := t |} =
        (Ok tt,
         {| self := set_headers_written true (set_write_buffer [] h');
            trace := t ++ [Sent (request_write block None)] |}).
Proof.
  intros w. split; [repeat split; reflexivity |].
  apply (@finish_HEAD_announces_length handler None w); reflexivity.
Defined.

(** GET to an application with [xsrf_cookies] on. *)
Lemma execute_without_xsrf_check_witness :
  let w := fresh app_xsrf (req "GET" ∅) in
  let h0 := set_transforms (Some []) (self w) in
  let supported := @SUPPORTED_METHODS handler in
  (method (request (self w)) ∈ supported /\
   (method (request (self w)) ∈ ["GET"; "HEAD"; "OPTIONS"]%string
    \/ truthy (settings_get (application (self w)) "xsrf_cookies") = false) /\
   @prepare handler h0 = (Ok prepared_None, h0, [])) /\
  @_execute handler [] w =
    try_except_Exception (@_when_complete handler prepared_None (@_execute_method handler))
      (fun e => call (c_handle_request_exception e)
                  (@_handle_request_exception handler e))
      {| self := h0;
         trace := (trace w ++ Called c_prepare :: (Sent <$> []))
                  ++ [Called c_when_complete] |}.
Proof.
  intros w h0 supported.
  assert (Hs : method (request (self w)) ∈ supported) by compute_done.
  assert (Hg : method (request (self w)) ∈ ["GET"; "HEAD"; "OPTIONS"]%string)
    by compute_done.
  split; [repeat split; solve [exact Hs | left; exact Hg | reflexivity] |].
  apply (@execute_without_xsrf_check handler [] w prepared_None h0 [] Hs
           (or_introl Hg)).
  reflexivity.
Defined.

(** A [prepare()] that raises, on a GET request. *)
Lemma execute_prepare_failure_witness :
  let w := fresh app (req "GET" ∅) in
  let h0 := set_transforms (Some []) (self w) in
  let e := OtherException "KeyError" in
  let supported := @SUPPORTED_METHODS failing_prepare in
  (method (request (self w)) ∈ supported /\
   (method (request (self w)) ∈ ["GET"; "HEAD"; "OPTIONS"]%string
    \/ truthy (settings_get (application (self w)) "xsrf_cookies") = false) /\
   @prepare failing_prepare h0 = (Raise e, h0, []) /\
   is_Exception e = true) /\
  exists (r : Res unit) (h' : Handler) (ws : list Wire),
    @_handle_request_exception failing_prepare e h0 = (r, h', ws) /\
    @_execute failing_prepare [] w =
      (r, {| self := h';
             trace := (trace w ++ Called c_prepare :: (Sent <$> []))
                      ++ Called (c_handle_request_exception e)
                      :: (Sent <$> ws) |}) /\
    forall c, Called c ∈ (Called c_prepare :: (Sent <$> []))
                         ++ Called (c_handle_request_exception e)
                         :: (Sent <$> ws) ->
              c <> c_check_xsrf_cookie /\ c <> c_when_complete /\
              c <> c_handle_request.
Proof.
  intros w h0 e supported.
  assert (Hs : method (request (self w)) ∈ supported) by compute_done.
  assert (Hg : method (request (self w)) ∈ ["GET"; "HEAD"; "OPTIONS"]%string)
    by compute_done.
  split; [repeat split; solve [exact Hs | left; exact Hg | reflexivity] |].
  apply (@execute_prepare_failure failing_prepare [] w e h0 [] Hs (or_introl Hg));
    reflexivity.
Defined.

(** A [prepare()] interrupted from the keyboard. *)
Lemma execute_lets_exit_through_witness :
  let w := fresh app (req "GET" ∅) in
  let w1 := {| self := set_transforms (Some []) (self w);
               trace := trace w ++ [Called c_prepare] |} in
  @_execute_try Variants.interrupted_prepare
    {| self := set_transforms (Some []) (self w); trace := trace w |}
    = (Raise (SystemExiting "KeyboardInterrupt"), w1) /\
  @_execute Variants.interrupted_prepare [] w
    = (Raise (SystemExiting "KeyboardInterrupt"), w1).
Proof.
  intros w w1.
  assert (Hbody : @_execute_try Variants.interrupted_prepare
                    {| self := set_transforms (Some []) (self w); trace := trace w |}
                  = (Raise (SystemExiting "KeyboardInterrupt"), w1)) by reflexivity.
  split; [exact Hbody |].
  apply (@execute_lets_exit_through Variants.interrupted_prepare [] w w1 _ Hbody).
Defined.

(** An [initialize()] that raises. *)
Lemma call_init_failure_escapes_witness :
  let e := OtherException "KeyError" in
  (@__init__ Variants.failing_initialize app (req "GET" ∅)).1 = Raise e /\
  @__call__ Variants.failing_initialize app (req "GET" ∅)
    = (Raise e, (@__init__ Variants.failing_initialize app (req "GET" ∅)).2) /\
  forall c, Called c ∈ trace (@__call__ Variants.failing_initialize app (req "GET" ∅)).2 ->
            c = c_initialize.
Proof.
  intros e.
  assert (Hinit : (@__init__ Variants.failing_initialize app (req "GET" ∅)).1 = Raise e)
    by reflexivity.
  split; [exact Hinit |].
  apply (@call_init_failure_escapes Variants.failing_initialize app (req "GET" ∅) e Hinit).
Defined.

(** A root module and no handler class. *)
Lemma application_init_contract_witness :
  let setup := fun _ : RootModule => Ok tt in
  let root := Some {| root_name := "root"; root_truthy := true |} in
  let a := {| app_settings := ∅; app_root := root;
              app_handler := Some RequestHandler_class; app_wsgi := false |} in
  let evs := [root_setup {| root_name := "root"; root_truthy := true |};
              Scope_created] in
  Application__init__ setup None root = (Ok a, evs) /\
  app_handler a = Some (default RequestHandler_class None) /\
  (@None HandlerClass = None -> is_Some (root_given root)) /\
  app_settings a = ∅ /\
  app_root a = root /\
  app_wsgi a = false /\
  (forall r, root_setup r ∈ evs <-> root_given root = Some r).
Proof.
  intros setup root a evs.
  assert (Hinit : Application__init__ setup None root = (Ok a, evs)) by reflexivity.
  split; [exact Hinit |].
  apply (application_init_contract setup None root a evs Hinit).
Defined.

(** No handler class and a root module that is falsy. *)
Lemma application_init_needs_handler_witness :
  let setup := fun _ : RootModule => Ok tt in
  let root := Some {| root_name := "root"; root_truthy := false |} in
  root_given root = None /\
  Application__init__ setup None root = (Raise (AssertionError ""), []).
Proof.
  intros setup root. split; [reflexivity |].
  apply (application_init_needs_handler setup root). reflexivity.
Defined.

(** POST to an application straight from its constructor. *)
Lemma fresh_application_skips_xsrf_witness :
  let setup := fun _ : RootModule => Ok tt in
  let a := {| app_settings := ∅; app_root := None;
              app_handler := Some RequestHandler_class; app_wsgi := false |} in
  let w := fresh (application_of a) (req "POST" ∅) in
  let h0 := set_transforms (Some []) (self w) in
  let supported := @SUPPORTED_METHODS handler in
  (Application__init__ setup (Some RequestHandler_class) None = (Ok a, [Scope_created]) /\
   application (self w) = application_of a /\
   method (request (self w)) ∈ supported /\
   @prepare handler h0 = (Ok prepared_None, h0, [])) /\
  @_execute handler [] w =
    try_except_Exception (@_when_complete handler prepared_None (@_execute_method handler))
      (fun e => call (c_handle_request_exception e)
                  (@_handle_request_exception handler e))
      {| self := h0;
         trace := (trace w ++ Called c_prepare :: (Sent <$> []))
                  ++ [Called c_when_complete] |}.
Proof.
  intros setup a w h0 supported.
  assert (Hs : method (request (self w)) ∈ supported) by compute_done.
  split; [repeat split; solve [exact Hs | reflexivity] |].
  apply (@fresh_application_skips_xsrf handler setup (Some RequestHandler_class) None
           a [Scope_created] [] w prepared_None h0 []);
    solve [exact Hs | reflexivity].
Defined.

(** Three blocks, two of them with the same name, rendered by a counter:
    the second [menu] is rendered anew. *)
Lemma render_parts_never_caches_witness :
  let caller := fun n : nat => (Ok (pretty n), S n) in
  let parts := [("menu"%string, @None Z); ("menu"%string, Some 60);
                ("footer"%string, None)] in
  let s' := (3%nat, ["get cache menu"; "get cache menu"; "get cache footer"]%string) in
  let rvs := ["0"; "1"; "2"]%string in
  Future.render_parts parts caller (0%nat, []) = (Ok rvs, s') /\
  length rvs = length parts /\
  (forall (i : nat) (rv : string),
      rvs !! i = Some rv ->
      (caller (Nat.iter i (fun st => (caller st).2) 0%nat)).1 = Ok rv) /\
  s'.1 = Nat.iter (length parts) (fun st => (caller st).2) 0%nat /\
  s'.2 = [] ++ ((fun p : string * option Z => "get cache " +:+ p.1) <$> parts).
Proof.
  intros caller parts s' rvs.
  assert (Hrun : Future.render_parts parts caller (0%nat, []) = (Ok rvs, s'))
    by reflexivity.
  split; [exact Hrun |].
  apply (render_parts_never_caches parts caller (0%nat, []) s' rvs Hrun).
Defined.

End MoreWitnesses.
